(** * CTEX to image converter (main.py): a shallow embedding

    The program reads a Godot CTEX container, decodes the little-endian
    format tag stored at offset 36, and copies everything from offset 56 on
    into a sibling file whose extension is chosen from the tag.  A second
    function walks a directory tree and collects the [.ctex] files.

    The embedding has four layers:
    - [Py]: the Python built-ins the script relies on (exceptions, [str]
      methods, f-string integer formatting, [struct.unpack]);
    - [PurePath]: the lexical part of [pathlib] (POSIX flavour);
    - [OS]: a file system (a tree of directories and regular files), the
      process working directory, and the I/O primitives, written in a
      state-and-exception monad;
    - the two functions of main.py, transcribed statement by statement.

    Modelling assumptions, stated once: text is a string of bytes and
    [str.lower] acts on ASCII letters; the file system has no symbolic links
    and is changed by this process only; every I/O primitive may fail with an
    environment fault taken from the [faults] oracle of the world;
    asynchronous interrupts are outside the model. *)

From Stdlib Require Import String Ascii List NArith ZArith Bool Lia.
From Stdlib Require Import DecimalString DecimalNat DecimalN.
From stdpp Require Import gmap strings.
Import ListNotations.

Abbreviation bytes := (list Byte.byte).

(** ** Python built-ins *)
Module Py.

(** The exception classes that the primitives used by main.py can raise.
    All of them derive from [Exception], and [FileNotFoundError] is a
    subclass of [OSError]; [str(e)] is the carried text. *)
Inductive exn : Type :=
| FileNotFoundError (msg : string)
| OSError (msg : string)
| ValueError (msg : string)
| StructError (msg : string).

Definition exn_str (e : exn) : string :=
  match e with
  | FileNotFoundError m | OSError m | ValueError m | StructError m => m
  end.

(** [f"{n}"] for a non-negative integer. *)
Definition fmt_nat (n : nat) : string := NilEmpty.string_of_uint (Nat.to_uint n).
Definition fmt_N (n : N) : string := NilEmpty.string_of_uint (N.to_uint n).

(** [s.split(c)] for a one-character separator. *)
Fixpoint split (c : ascii) (s : string) : list string :=
  match s with
  | EmptyString => [EmptyString]
  | String a s' =>
      if Ascii.eqb a c then EmptyString :: split c s'
      else match split c s' with
           | h :: t => String a h :: t
           | [] => [String a EmptyString]
           end
  end.

(** [sep.join(l)]. *)
Fixpoint join (sep : string) (l : list string) : string :=
  match l with
  | [] => EmptyString
  | [x] => x
  | x :: l' => x +:+ sep +:+ join sep l'
  end.

(** [s.rfind(c)]: the highest index of [c] in [s], or [-1]. *)
Fixpoint rfind (c : ascii) (s : string) : Z :=
  match s with
  | EmptyString => (-1)%Z
  | String a s' =>
      let r := rfind c s' in
      if (0 <=? r)%Z then (r + 1)%Z
      else if Ascii.eqb a c then 0%Z else (-1)%Z
  end.

(** [s[:i]] for [0 <= i]. *)
Definition slice_to (i : Z) (s : string) : string :=
  String.substring 0 (Z.to_nat i) s.

Definition lower_ascii (a : ascii) : ascii :=
  let n := nat_of_ascii a in
  if (65 <=? n) && (n <=? 90) then ascii_of_nat (n + 32) else a.

(** [s.lower()]. *)
Fixpoint lower (s : string) : string :=
  match s with
  | EmptyString => EmptyString
  | String a s' => String (lower_ascii a) (lower s')
  end.

(** [s.startswith(p)] and [s.endswith(p)]. *)
Definition startswith (s p : string) : bool := String.prefix p s.

Fixpoint endswith (s p : string) : bool :=
  if String.eqb s p then true
  else match s with
       | EmptyString => false
       | String _ s' => endswith s' p
       end.

(** [struct.unpack('<I', b)[0]]: four bytes, least significant first;
    any other length raises [struct.error]. *)
Definition unpack_le_u32 (b : bytes) : exn + N :=
  match b with
  | [b0; b1; b2; b3] =>
      inr (Byte.to_N b0 + 256 * Byte.to_N b1
           + 65536 * Byte.to_N b2 + 16777216 * Byte.to_N b3)%N
  | _ => inl (StructError "unpack requires a buffer of 4 bytes")
  end.

(** [d.get(k, dflt)] on a dict. *)
Definition dict_get {V} (d : gmap N V) (k : N) (dflt : V) : V :=
  default dflt (d !! k).

End Py.

(** ** pathlib, lexical part (PurePosixPath) *)
Module PurePath.

(** A parsed path: the root (["" ], ["/"] or ["//"]) and the components. *)
Record t : Type := Build { root : string; parts : list string }.

(** [posixpath.splitroot]: one leading slash or three and more give the
    root ["/"], exactly two give ["//"]. *)
Definition splitroot (p : string) : string * string :=
  match p with
  | String "/" (String "/" (String "/" _)) => ("/", String.substring 1 (String.length p) p)
  | String "/" (String "/" r) => ("//", r)
  | String "/" r => ("/", r)
  | _ => ("", p)
  end.

(** [Path(s)]: split the part after the root at the slashes and drop the
    empty and ["."] components. *)
Definition parse (s : string) : t :=
  let '(rt, rel) := splitroot s in
  Build rt (List.filter
              (fun x => negb (String.eqb x "") && negb (String.eqb x "."))
              (Py.split "/" rel)).

(** [str(p)]. *)
Definition format (p : t) : string := root p +:+ Py.join "/" (parts p).

Definition str (p : t) : string :=
  match format p with
  | EmptyString => "."
  | s => s
  end.

(** [p.name]: the last component, or the empty string. *)
Definition name (p : t) : string := List.last (parts p) "".

(** [p.stem]: the name without its last suffix; a leading dot or a
    trailing dot does not start a suffix (pathlib up to Python 3.13). *)
Definition stem (p : t) : string :=
  let name := name p in
  let i := Py.rfind "." name in
  if (0 <? i)%Z && (i <? Z.of_nat (String.length name) - 1)%Z
  then Py.slice_to i name
  else name.

(** [p.parent]: drop the last component; a path without components is
    its own parent. *)
Definition parent (p : t) : t := Build (root p) (removelast (parts p)).

(** [p / seg]: an absolute segment replaces [p], a relative one is
    appended. *)
Definition div (p : t) (seg : string) : t :=
  let q := parse seg in
  match root q with
  | EmptyString => Build (root p) (parts p ++ parts q)
  | _ => q
  end.

End PurePath.

(** ** The file system and the I/O primitives *)
Module OS.

(** A file system node: a regular file with its content, or a directory
    with its entries in the order in which a directory scan lists them. *)
#[warnings="-register-all"]
Inductive node : Type :=
| File (data : bytes)
| Dir (entries : list (string * node)).

(** The state of the environment: the tree under the root directory, the
    working directory of the process (components from the root), and the
    environment faults still to come, one slot per primitive call
    ([Some e]: the call fails with [e]; [None] or no slot: it proceeds). *)
Record world : Type := World {
  tree : node;
  cwd : list string;
  faults : list (option Py.exn)
}.

Fixpoint entry_get (c : string) (es : list (string * node)) : option node :=
  match es with
  | [] => None
  | (c', n) :: es' => if String.eqb c c' then Some n else entry_get c es'
  end.

(** Replace the entry named [c], or add it at the end. *)
Fixpoint entry_put (c : string) (n : node) (es : list (string * node))
  : list (string * node) :=
  match es with
  | [] => [(c, n)]
  | (c', n') :: es' =>
      if String.eqb c c' then (c, n) :: es' else (c', n') :: entry_put c n es'
  end.

(** The node reached from [t] along the components [k]. *)
Fixpoint lookup (t : node) (k : list string) : option node :=
  match k with
  | [] => Some t
  | c :: k' =>
      match t with
      | File _ => None
      | Dir es =>
          match entry_get c es with
          | Some child => lookup child k'
          | None => None
          end
      end
  end.

(** Store [n] at [k]; the directory that holds the last component must
    exist, otherwise the tree is left as it is. *)
Fixpoint put (k : list string) (n : node) (t : node) : node :=
  match k with
  | [] => n
  | c :: k' =>
      match t with
      | File _ => t
      | Dir es =>
          match entry_get c es with
          | Some child => Dir (entry_put c (put k' n child) es)
          | None =>
              match k' with
              | [] => Dir (entry_put c n es)
              | _ :: _ => t
              end
          end
      end
  end.

Definition is_dir_at (t : node) (k : list string) : bool :=
  match lookup t k with
  | Some (Dir _) => true
  | _ => false
  end.

Definition enoent (p : string) : Py.exn :=
  Py.FileNotFoundError ("[Errno 2] No such file or directory: '" +:+ p +:+ "'").
Definition enotdir (p : string) : Py.exn :=
  Py.OSError ("[Errno 20] Not a directory: '" +:+ p +:+ "'").
Definition eisdir (p : string) : Py.exn :=
  Py.OSError ("[Errno 21] Is a directory: '" +:+ p +:+ "'").
Definition eexist (p : string) : Py.exn :=
  Py.OSError ("[Errno 17] File exists: '" +:+ p +:+ "'").
Definition ebadf : Py.exn := Py.OSError "[Errno 9] Bad file descriptor".

(** Path resolution, component by component: the position reached so far
    must be a directory before the next component is looked at; an empty
    component or ["."] stays, [".."] goes up (the root is its own
    parent), a name goes down.  Whether the last name exists is left to
    the caller. *)
Fixpoint walk_components (p : string) (t : node) (cur : list string)
  (comps : list string) : Py.exn + list string :=
  match comps with
  | [] => inr cur
  | c :: rest =>
      match lookup t cur with
      | None => inl (enoent p)
      | Some (File _) => inl (enotdir p)
      | Some (Dir _) =>
          if String.eqb c "" || String.eqb c "." then walk_components p t cur rest
          else if String.eqb c ".." then walk_components p t (removelast cur) rest
          else walk_components p t (cur ++ [c]) rest
      end
  end.

(** The position a path string names, seen from the working directory
    [c]: an absolute path starts at the root; the empty path names
    nothing. *)
Definition resolve (t : node) (c : list string) (p : string)
  : Py.exn + list string :=
  match p with
  | EmptyString => inl (enoent p)
  | _ =>
      walk_components p t
        (if Py.startswith p "/" then [] else c) (Py.split "/" p)
  end.

(** The content of the regular file that [p] names, if it names one. *)
Definition file_in (t : node) (c : list string) (p : string) : option bytes :=
  match resolve t c p with
  | inr k =>
      match lookup t k with
      | Some (File d) => Some d
      | _ => None
      end
  | inl _ => None
  end.

Definition file_at (w : world) (p : string) : option bytes :=
  file_in (tree w) (cwd w) p.

(** Whether [p] names a directory. *)
Definition dir_in (t : node) (c : list string) (p : string) : bool :=
  match resolve t c p with
  | inr k => is_dir_at t k
  | inl _ => false
  end.

Definition dir_at (w : world) (p : string) : bool :=
  dir_in (tree w) (cwd w) p.

(** *** The monad: state, and Python exceptions *)
Definition M (A : Type) : Type := world -> (Py.exn + A) * world.

Definition ret {A} (a : A) : M A := fun w => (inr a, w).
Definition raise {A} (e : Py.exn) : M A := fun w => (inl e, w).
Definition bind {A B} (c : M A) (k : A -> M B) : M B :=
  fun w =>
    match c w with
    | (inr a, w') => k a w'
    | (inl e, w') => (inl e, w')
    end.
(** [try: c  except <classes>: h]; [h] re-raises what it does not handle. *)
Definition try_except {A} (c : M A) (h : Py.exn -> M A) : M A :=
  fun w =>
    match c w with
    | (inr a, w') => (inr a, w')
    | (inl e, w') => h e w'
    end.
Definition lift {A} (r : Py.exn + A) : M A := fun w => (r, w).

Definition set_tree (t : node) (w : world) : world :=
  World t (cwd w) (faults w).

(** Every primitive first consumes one slot of the fault oracle. *)
Definition syscall {A} (op : M A) : M A :=
  fun w =>
    match faults w with
    | [] => op w
    | None :: fs => op (World (tree w) (cwd w) fs)
    | Some e :: fs => (inl e, World (tree w) (cwd w) fs)
    end.

(** An open file object: the file it refers to and its position. *)
Record file_obj : Type := FileObj { fo_key : list string; fo_pos : nat }.

(** [open(p, 'rb')] *)
Definition open_rb (p : string) : M file_obj :=
  syscall (fun w =>
    match resolve (tree w) (cwd w) p with
    | inl e => (inl e, w)
    | inr k =>
        match lookup (tree w) k with
        | None => (inl (enoent p), w)
        | Some (Dir _) => (inl (eisdir p), w)
        | Some (File _) => (inr (FileObj k 0), w)
        end
    end).

(** [open(p, 'wb')]: create the file, or truncate it. *)
Definition open_wb (p : string) : M file_obj :=
  syscall (fun w =>
    match resolve (tree w) (cwd w) p with
    | inl e => (inl e, w)
    | inr k =>
        match lookup (tree w) k with
        | Some (Dir _) => (inl (eisdir p), w)
        | _ => (inr (FileObj k 0), set_tree (put k (File []) (tree w)) w)
        end
    end).

Definition file_data (w : world) (f : file_obj) : Py.exn + bytes :=
  match lookup (tree w) (fo_key f) with
  | Some (File d) => inr d
  | _ => inl ebadf
  end.

(** [f.seek(off, whence)] for [whence] 0 (from the start) and 2 (from the
    end); the file object is returned with its new position. *)
Definition seek (f : file_obj) (off : nat) (whence : nat) : M file_obj :=
  syscall (fun w =>
    match file_data w f with
    | inl e => (inl e, w)
    | inr d =>
        match whence with
        | 0 => (inr (FileObj (fo_key f) off), w)
        | 2 => (inr (FileObj (fo_key f) (length d + off)), w)
        | _ => (inl (Py.ValueError "invalid whence"), w)
        end
    end).

(** [f.tell()] *)
Definition tell (f : file_obj) : M nat :=
  syscall (fun w => (inr (fo_pos f), w)).

(** [f.read(n)], and [f.read()] for [n = None]: the bytes from the current
    position, at most [n] of them; the position moves past them. *)
Definition read (f : file_obj) (n : option nat) : M (bytes * file_obj) :=
  syscall (fun w =>
    match file_data w f with
    | inl e => (inl e, w)
    | inr d =>
        let rest := skipn (fo_pos f) d in
        let got := match n with Some n => firstn n rest | None => rest end in
        (inr (got, FileObj (fo_key f) (fo_pos f + length got)), w)
    end).

(** [f.write(data)] at the current position. *)
Definition write (f : file_obj) (data : bytes) : M file_obj :=
  syscall (fun w =>
    match file_data w f with
    | inl e => (inl e, w)
    | inr d =>
        let d' := firstn (fo_pos f) d ++ data ++ skipn (fo_pos f + length data) d in
        (inr (FileObj (fo_key f) (fo_pos f + length data)),
         set_tree (put (fo_key f) (File d') (tree w)) w)
    end).

(** [f.close()] *)
Definition close (f : file_obj) : M unit :=
  syscall (fun w => (inr tt, w)).

(** [os.mkdir(p)]: one level only. *)
Definition mkdir (p : string) : M unit :=
  syscall (fun w =>
    match resolve (tree w) (cwd w) p with
    | inl e => (inl e, w)
    | inr k =>
        match lookup (tree w) k with
        | Some _ => (inl (eexist p), w)
        | None => (inr tt, set_tree (put k (Dir []) (tree w)) w)
        end
    end).

(** [os.path.isdir(p)]: a query; every failure reads as [False]. *)
Definition isdir (p : string) : M bool :=
  fun w => (inr (dir_at w p), w).

(** [with opener as f: body]: the file is closed on every way out, and a
    failure of the close is what the statement raises. *)
Definition with_open {A} (opener : M file_obj) (body : file_obj -> M A) : M A :=
  fun w =>
    match opener w with
    | (inl e, w1) => (inl e, w1)
    | (inr f, w1) =>
        let '(r, w2) := body f w1 in
        match close f w2 with
        | (inl e, w3) => (inl e, w3)
        | (inr _, w3) => (r, w3)
        end
    end.

(** [os.path.join(a, b)] *)
Definition path_join (a b : string) : string :=
  if Py.startswith b "/" then b
  else if String.eqb a "" || Py.endswith a "/" then a +:+ b
  else a +:+ "/" +:+ b.

End OS.

Notation "'let*' x ':=' c 'in' k" := (OS.bind c (fun x => k))
  (at level 10, x pattern, c at level 100, k at level 200).

(** ** pathlib, the part that touches the file system *)
Module Path.

(** [p.mkdir(parents=False, exist_ok=True)]: a missing parent is an error;
    any other failure is accepted when [p] is a directory all the same. *)
Definition mkdir_exist_ok (p : PurePath.t) : OS.M unit :=
  OS.try_except (OS.mkdir (PurePath.str p))
    (fun e =>
       match e with
       | Py.FileNotFoundError _ => OS.raise e
       | Py.OSError _ =>
           (let* b := OS.isdir (PurePath.str p) in
            if b then OS.ret tt else OS.raise e)
       | _ => OS.raise e
       end).

(** [p.mkdir(parents=True, exist_ok=True)] for [p] with the root [rt] and
    the components [rev rparts]: when a parent is missing, make the parent
    in the same way and then [p] itself. *)
Fixpoint mkdir_parents (rt : string) (rparts : list string) : OS.M unit :=
  let self := PurePath.Build rt (rev rparts) in
  OS.try_except (OS.mkdir (PurePath.str self))
    (fun e =>
       match e with
       | Py.FileNotFoundError _ =>
           match rparts with
           | [] => OS.raise e
           | _ :: up => (let* _ := mkdir_parents rt up in mkdir_exist_ok self)
           end
       | Py.OSError _ =>
           (let* b := OS.isdir (PurePath.str self) in
            if b then OS.ret tt else OS.raise e)
       | _ => OS.raise e
       end).

Definition mkdir (p : PurePath.t) : OS.M unit :=
  mkdir_parents (PurePath.root p) (rev (PurePath.parts p)).

End Path.

(** ** main.py *)

(** The value returned by [convert_ctex_to_image]:
    [(success, output_path, error_message)]. *)
Definition result : Type := bool * string * string.

Definition format_map : gmap N string :=
  {[ 0%N := ".unknown"; 1%N := ".png"; 2%N := ".webp"; 3%N := ".basis" ]}.

Definition format_names : gmap N string :=
  {[ 0%N := "IMAGE"; 1%N := "PNG"; 2%N := "WEBP"; 3%N := "BASIS_UNIVERSAL" ]}.

(** Truth value of the optional [output_dir] argument: [None] and the empty
    string are false. *)
Definition truthy (output_dir : option string) : bool :=
  match output_dir with
  | Some (String _ _) => true
  | _ => false
  end.

(** [format_map.get(format_type, f'.format{format_type}')] *)
Definition ext (format_type : N) : string :=
  Py.dict_get format_map format_type (".format" +:+ Py.fmt_N format_type).

(** [format_names.get(format_type, f'UNKNOWN({format_type})')] *)
Definition format_name (format_type : N) : string :=
  Py.dict_get format_names format_type
    ("UNKNOWN(" +:+ Py.fmt_N format_type +:+ ")").

(** The path of the output file: the stem of the input name with the
    extension, in [output_dir] when that is given and not empty, next to the
    input otherwise. *)
Definition output_path (ctex_path : string) (output_dir : option string)
  (ext : string) : PurePath.t :=
  let ctex_file := PurePath.parse ctex_path in
  if truthy output_dir
  then PurePath.div (PurePath.parse (default "" output_dir))
                    (PurePath.stem ctex_file +:+ ext)
  else PurePath.div (PurePath.parent ctex_file)
                    (PurePath.stem ctex_file +:+ ext).

(** The statements inside the [try] block of [convert_ctex_to_image]
    (main.py, lines 23 to 82).  The file object [f] is passed on with its
    position; an early [return] is the branch of a conditional. *)
Definition convert_body (ctex_path : string) (output_dir : option string)
  : OS.M result :=
  OS.with_open (OS.open_rb ctex_path) (fun f =>
    (let* f := OS.seek f 0 2 in
     let* file_size := OS.tell f in
     let* f := OS.seek f 0 0 in
     if file_size <? 56 then
       OS.ret (false, "",
               "File too small (" +:+ Py.fmt_nat file_size
               +:+ " bytes), minimum 56 bytes required")
     else
     let* f := OS.seek f 36 0 in
     let* (format_bytes, f) := OS.read f (Some 4) in
     if length format_bytes <? 4 then
       OS.ret (false, "", "Failed to read format information")
     else
     let* format_type := OS.lift (Py.unpack_le_u32 format_bytes) in
     let* f := OS.seek f 56 0 in
     let* (image_data, f) := OS.read f None in
     match image_data with
     | [] => OS.ret (false, "", "No image data found after header")
     | _ :: _ =>
     let ext := ext format_type in
     let output_path := output_path ctex_path output_dir ext in
     let* _ := Path.mkdir (PurePath.parent output_path) in
     let* _ := OS.with_open (OS.open_wb (PurePath.str output_path))
       (fun out => OS.write out image_data) in
     let format_name := format_name format_type in
     OS.ret (true, PurePath.str output_path,
             "Format: " +:+ format_name +:+ ", Size: "
             +:+ Py.fmt_nat (length image_data) +:+ " bytes")
     end)).

(** [convert_ctex_to_image(ctex_path, output_dir=None)]: the body, with
    [except Exception as e] around it (main.py, lines 84 and 85). *)
Definition convert_ctex_to_image (ctex_path : string) (output_dir : option string)
  : OS.M result :=
  OS.try_except (convert_body ctex_path output_dir)
    (fun e => OS.ret (false, "", "Error processing file: " +:+ Py.exn_str e)).

(** [os.walk(top)] on the node found at [top]: the triples
    [(root, dirs, files)] it yields, a directory before its
    sub-directories, the sub-directories in listing order. *)
Fixpoint walk_node (top : string) (n : OS.node)
  : list (string * list string * list string) :=
  match n with
  | OS.File _ => []
  | OS.Dir es =>
      (top,
       flat_map (fun e => match snd e with OS.Dir _ => [fst e] | OS.File _ => [] end) es,
       flat_map (fun e => match snd e with OS.File _ => [fst e] | OS.Dir _ => [] end) es)
      :: flat_map (fun e => walk_node (OS.path_join top (fst e)) (snd e)) es
  end.

(** [os.walk(top)]: a [top] that cannot be listed yields nothing. *)
Definition os_walk (top : string) : OS.M (list (string * list string * list string)) :=
  fun w =>
    match OS.resolve (OS.tree w) (OS.cwd w) top with
    | inl _ => (inr [], w)
    | inr k =>
        match OS.lookup (OS.tree w) k with
        | Some n => (inr (walk_node top n), w)
        | None => (inr [], w)
        end
    end.

(** The two nested loops of [find_ctex_files] over the triples of the
    walk, with the list [ctex_files] as the accumulator. *)
Definition collect (triples : list (string * list string * list string))
  : list string :=
  fold_left
    (fun ctex_files '(root, dirs, files) =>
       fold_left
         (fun ctex_files file =>
            if Py.endswith (Py.lower file) ".ctex"
            then ctex_files ++ [OS.path_join root file]
            else ctex_files)
         files ctex_files)
    triples [].

(** [find_ctex_files(directory)] (main.py, lines 97 to 102). *)
Definition find_ctex_files (directory : string) : OS.M (list string) :=
  let* triples := os_walk directory in
  OS.ret (collect triples).

(** ** os.path, the lexical part, and the working directory *)
Module OsPath.

(** [os.getcwd()]: the working directory as an absolute path. *)
Definition getcwd : OS.M string :=
  fun w => (inr ("/" +:+ Py.join "/" (OS.cwd w)), w).

(** [os.path.normpath(path)]: empty and ["."] components go, a [".."]
    takes the component before it away, unless there is none to take (then
    it stays in a relative path and goes in an absolute one) or that one is
    a [".."] itself. *)
Definition normpath (path : string) : string :=
  match path with
  | EmptyString => "."
  | _ =>
      let '(initial_slashes, rest) := PurePath.splitroot path in
      let comps := Py.split "/" rest in
      let new_comps :=
        fold_left
          (fun new_comps comp =>
             if String.eqb comp "" || String.eqb comp "." then new_comps
             else if negb (String.eqb comp "..")
                     || (String.eqb initial_slashes ""
                         && match new_comps with [] => true | _ => false end)
                     || String.eqb (List.last new_comps "") ".."
                  then new_comps ++ [comp]
                  else removelast new_comps)
          comps [] in
      match initial_slashes +:+ Py.join "/" new_comps with
      | EmptyString => "."
      | String a s => String a s
      end
  end.

(** [os.path.abspath(path)] *)
Definition abspath (path : string) : OS.M string :=
  if Py.startswith path "/" then OS.ret (normpath path)
  else
    let* cwd := getcwd in
    OS.ret (normpath (OS.path_join cwd path)).

(** [os.path.commonprefix([l1, l2])] for two lists of components: their
    longest common prefix. *)
Fixpoint commonprefix (l1 l2 : list string) : list string :=
  match l1, l2 with
  | x :: l1', y :: l2' => if String.eqb x y then x :: commonprefix l1' l2' else []
  | _, _ => []
  end.

(** [os.path.join] applied to the elements of a list that is not empty. *)
Definition join_all (l : list string) : string :=
  match l with
  | [] => ""
  | a :: p => fold_left OS.path_join p a
  end.

(** [os.path.relpath(path)], relative to the working directory. *)
Definition relpath (path : string) : OS.M string :=
  match path with
  | EmptyString => OS.raise (Py.ValueError "no path specified")
  | _ =>
      let* start := abspath "." in
      let* target := abspath path in
      let start_list :=
        List.filter (fun x => negb (String.eqb x "")) (Py.split "/" start) in
      let path_list :=
        List.filter (fun x => negb (String.eqb x "")) (Py.split "/" target) in
      let i := length (commonprefix start_list path_list) in
      let rel_list :=
        repeat ".." (length start_list - i) ++ skipn i path_list in
      match rel_list with
      | [] => OS.ret "."
      | _ :: _ => OS.ret (join_all rel_list)
      end
  end.

End OsPath.

(** ** The batch driver *)

(** A program that prints: the lines printed so far go along with the
    world. *)
Definition PM (A : Type) : Type :=
  list string → OS.world → (Py.exn + A) * list string * OS.world.

Definition pret {A} (a : A) : PM A := fun out w => (inr a, out, w).

Definition pbind {A B} (c : PM A) (k : A → PM B) : PM B :=
  fun out w =>
    match c out w with
    | (inr a, out', w') => k a out' w'
    | (inl e, out', w') => (inl e, out', w')
    end.

Notation "'let!' x ':=' c 'in' k" := (pbind c (fun x => k))
  (at level 10, x pattern, c at level 100, k at level 200).

(** [print(s)] *)
Definition print (s : string) : PM unit := fun out w => (inr tt, out ++ [s], w).

(** A call that does not print. *)
Definition call {A} (c : OS.M A) : PM A :=
  fun out w => let '(r, w') := c w in (r, out, w').

(** [for x in l: body], with the variables the loop updates as [s]. *)
Fixpoint for_each {A S} (l : list A) (body : A → S → PM S) (s : S) : PM S :=
  match l with
  | [] => pret s
  | x :: l' => let! s' := body x s in for_each l' body s'
  end.

(** [s * n] *)
Fixpoint str_mul (s : string) (n : nat) : string :=
  match n with
  | 0 => ""
  | S n' => s +:+ str_mul s n'
  end.

(** [enumerate(l, i)] *)
Fixpoint enumerate {A} (l : list A) (i : nat) : list (nat * A) :=
  match l with
  | [] => []
  | x :: l' => (i, x) :: enumerate l' (S i)
  end.

Definition newline : string := String "010" "".

(** The body of the first loop of [main] (main.py, lines 120 and 121). *)
Definition list_file (entry : nat * string) (_ : unit) : PM unit :=
  let '(i, file) := entry in
  let! rel := call (OsPath.relpath file) in
  print ("  " +:+ Py.fmt_nat i +:+ ". " +:+ rel).

(** The body of the second loop of [main] (main.py, lines 129 to 143), with
    [(success_count, error_count)] as the variables it updates. *)
Definition process_file (ctex_file : string) (counts : nat * nat)
  : PM (nat * nat) :=
  let '(success_count, error_count) := counts in
  let! rel_path := call (OsPath.relpath ctex_file) in
  let! _ := print ("Processing: " +:+ rel_path) in
  let! res := call (convert_ctex_to_image ctex_file None) in
  let '(success, output_path, message) := res in
  let! counts :=
    if success then
      let! rel_out := call (OsPath.relpath output_path) in
      let! _ := print ("  ✓ Converted to: " +:+ rel_out) in
      let! _ := print ("    " +:+ message) in
      pret (success_count + 1, error_count)
    else
      let! _ := print ("  ✗ Failed: " +:+ message) in
      pret (success_count, error_count + 1) in
  let! _ := print "" in
  pret counts.

(** The lines that close the report (main.py, lines 145 to 151). *)
Definition summary (counts : nat * nat) : PM unit :=
  let '(success_count, error_count) := counts in
  let! _ := print (str_mul "=" 40) in
  let! _ := print "Conversion completed!" in
  let! _ := print ("Success: " +:+ Py.fmt_nat success_count +:+ " files") in
  let! _ := print ("Errors:  " +:+ Py.fmt_nat error_count +:+ " files") in
  if 0 <? error_count then
    print (newline +:+ "Note: Some files may not be standard CTEX format or may be corrupted.")
  else pret tt.

(** [main()] (main.py, lines 104 to 151). *)
Definition main : PM unit :=
  let! _ := print "CTEX to Image Converter" in
  let! _ := print (str_mul "=" 40) in
  let! current_dir := call OsPath.getcwd in
  let! _ := print ("Searching for CTEX files in: " +:+ current_dir) in
  let! ctex_files := call (find_ctex_files current_dir) in
  match ctex_files with
  | [] => print "No CTEX files found in current directory and subdirectories."
  | _ :: _ =>
      let! _ := print ("Found " +:+ Py.fmt_nat (length ctex_files)
                       +:+ " CTEX files:") in
      let! _ := for_each (enumerate ctex_files 1) list_file tt in
      let! _ := print (newline +:+ "Converting files...") in
      let! _ := print (str_mul "-" 40) in
      let! counts := for_each ctex_files process_file (0, 0) in
      summary counts
  end.

(** ** A sample file system *)

(** A 56-byte header with the given low byte of the format tag. *)
Definition header (tag : Byte.byte) : bytes :=
  repeat Byte.x00 36 ++ [tag; Byte.x00; Byte.x00; Byte.x00] ++ repeat Byte.x00 16.

(** A 60-byte container: tag 1 and the four bytes of the PNG magic. *)
Definition icon : bytes := header Byte.x01 ++ [Byte.x89; Byte.x50; Byte.x4e; Byte.x47].

Definition tiny : bytes := [Byte.x00; Byte.x01].

(** The directory [/proj], which is also the working directory. *)
Definition sample : OS.world :=
  OS.World
    (OS.Dir
       [("proj",
         OS.Dir
           [("icon.ctex", OS.File icon);
            ("tiny.ctex", OS.File tiny);
            ("bare.ctex", OS.File (header Byte.x02));
            ("notes.txt", OS.File []);
            ("sub",
             OS.Dir [("Tex.CTEX", OS.File (header Byte.x07 ++ [Byte.x2a]));
                     ("deep", OS.Dir [("a.Ctex", OS.File [])])])])])
    ["proj"] [].

(** The sample after [convert_ctex_to_image("icon.ctex")]. *)
Definition sample_converted : OS.world :=
  (convert_ctex_to_image "icon.ctex" None sample).2.
(** A world without any [.ctex] file. *)
Definition plain : OS.world :=
  OS.World (OS.Dir [("proj", OS.Dir [("notes.txt", OS.File [])])]) ["proj"] [].



(** * Vocabulary of the properties *)
Section Vocabulary.
Import OS.

(** Directories stay directories. *)
Definition dirs_kept (t t' : node) : Prop :=
  ∀ k, is_dir_at t k = true → is_dir_at t' k = true.

(** [put] takes effect where the position exists already or where its
    parent is a directory. *)
Definition put_ok (t : node) (k : list string) : Prop :=
  is_Some (lookup t k) ∨ ∃ k' c, k = k' ++ [c] ∧ is_dir_at t k' = true.

(** [post c w Q]: the outcome of running [c] from [w] satisfies [Q]. *)
Definition post {A} (c : M A) (w : world) (Q : Py.exn + A → world → Prop) : Prop :=
  Q (c w).1 (c w).2.

(** What every run of a [mkdir] of [p] guarantees: directories are kept,
    and after a normal return [p] names a directory. *)
Definition mkdir_post (t : node) (c : list string) (p : string)
  (Q : Py.exn + unit → world → Prop) : Prop :=
  ∀ r t' fs', dirs_kept t t' →
    match r with inr _ => dir_in t' c p = true | inl _ => True end →
    Q r (World t' c fs').

(** Every outcome of the statements in the [try] block, in terms of the
    tree [t] and the working directory [c] they started from. *)
Definition body_post (ctex_path : string) (output_dir : option string)
  (t : node) (c : list string) (r : Py.exn + result) (w' : world) : Prop :=
  cwd w' = c ∧
  match r with
  | inl e =>
      tree w' = t ∨
      ∃ data, file_in t c ctex_path = Some data ∧ 56 < length data
  | inr (success, out, msg) =>
      ∃ data, file_in t c ctex_path = Some data ∧
      if success then
        ∃ ft t1 kout,
          56 < length data ∧
          Py.unpack_le_u32 (firstn 4 (skipn 36 data)) = inr ft ∧
          out = PurePath.str (output_path ctex_path output_dir (ext ft)) ∧
          msg = "Format: " +:+ format_name ft +:+ ", Size: "
                +:+ Py.fmt_nat (length (skipn 56 data)) +:+ " bytes" ∧
          dirs_kept t t1 ∧
          dir_in t1 c (PurePath.str (PurePath.parent
                         (output_path ctex_path output_dir (ext ft)))) = true ∧
          resolve t1 c out = inr kout ∧
          is_dir_at t1 kout = false ∧
          tree w' = put kout (File (skipn 56 data)) t1
      else
        tree w' = t ∧ out = "" ∧
        ((length data < 56 ∧
          msg = "File too small (" +:+ Py.fmt_nat (length data)
                +:+ " bytes), minimum 56 bytes required")
         ∨ (length data = 56 ∧ msg = "No image data found after header"))
  end.

(** No slash occurs in [s]. *)
Fixpoint slash_free (s : string) : bool :=
  match s with
  | EmptyString => true
  | String a s' => negb (Ascii.eqb a "/") && slash_free s'
  end.

(** The directory that receives the output. *)
Definition output_parent (ctex_path : string) (output_dir : option string)
  : PurePath.t :=
  if truthy output_dir
  then PurePath.parse (default "" output_dir)
  else PurePath.parent (PurePath.parse ctex_path).

(** The name ends with [.ctex], in any mix of upper and lower case. *)
Definition ctex_name (name : string) : Prop :=
  ∃ pre c1 c2 c3 c4,
    name = pre +:+ String "." (String c1 (String c2 (String c3 (String c4 ""))))
    ∧ (c1 = "c" ∨ c1 = "C")%char ∧ (c2 = "t" ∨ c2 = "T")%char
    ∧ (c3 = "e" ∨ c3 = "E")%char ∧ (c4 = "x" ∨ c4 = "X")%char.

(** [file_under n rel name]: below the directory [n], the directories
    [rel] lead to a directory with a regular file called [name]. *)
Inductive file_under : OS.node → list string → string → Prop :=
| file_here es name d :
    In (name, OS.File d) es → file_under (OS.Dir es) [] name
| file_below es dname child rel name :
    In (dname, child) es → file_under child rel name →
    file_under (OS.Dir es) (dname :: rel) name.

End Vocabulary.

(** * Vocabulary of the further properties *)
Section Frame.
Import OS.

(** Regular files keep their content. *)
Definition files_kept (t t' : node) : Prop :=
  ∀ k d, lookup t k = Some (File d) → lookup t' k = Some (File d).

(** Two nodes from which every walk collects the same paths. *)
Definition same_inputs (n n' : node) : Prop :=
  ∀ top, collect (walk_node top n) = collect (walk_node top n').

(** Every directory is still there, and a walk of it collects what it
    collected. *)
Definition inputs_kept (t t' : node) : Prop :=
  ∀ k es, lookup t k = Some (Dir es) →
    ∃ es', lookup t' k = Some (Dir es') ∧ same_inputs (Dir es) (Dir es').

(** What every run of a [mkdir] guarantees for the nodes that exist. *)
Definition mkdir_frame (t : node) (c : list string)
  (Q : Py.exn + unit → world → Prop) : Prop :=
  ∀ r t' fs', dirs_kept t t' → files_kept t t' → inputs_kept t t' →
    Q r (World t' c fs').

(** What every outcome of the [try] block guarantees for the nodes that
    exist: directories stay and a walk of them collects what it collected,
    and a regular file keeps its content unless it sits where the output
    path leads. *)
Definition body_frame (ctex_path : string) (output_dir : option string)
  (t : node) (c : list string) (r : Py.exn + result) (w' : world) : Prop :=
  cwd w' = c ∧
  dirs_kept t (tree w') ∧
  inputs_kept t (tree w') ∧
  ∀ k d, lookup t k = Some (File d) →
    lookup (tree w') k = Some (File d) ∨
    ∃ data ft,
      file_in t c ctex_path = Some data ∧
      Py.unpack_le_u32 (firstn 4 (skipn 36 data)) = inr ft ∧
      resolve (tree w') c
        (PurePath.str (output_path ctex_path output_dir (ext ft))) = inr k.

(** A directory entry name proper: not empty, not ["."], not [".."]. *)
Definition clean_name (c : string) : Prop := c ≠ "" ∧ c ≠ "." ∧ c ≠ "..".



End Frame.

Section BatchVocabulary.
Import OS.

(** What the batch keeps of the world: the working directory, the
    directories, the regular files whose name ends with [.ctex], and what
    a walk collects. *)
Definition batch_frame (w w' : world) : Prop :=
  cwd w' = cwd w ∧
  (∀ q, dir_at w q = true → dir_at w' q = true) ∧
  (∀ q d, file_at w q = Some d →
          ctex_name (PurePath.name (PurePath.parse q)) →
          file_at w' q = Some d) ∧
  inputs_kept (tree w) (tree w').


(** The advisory line that ends a report with errors. *)
Definition advisory : string :=
  newline +:+ "Note: Some files may not be standard CTEX format or may be corrupted.".

End BatchVocabulary.

Section TreeVocabulary.
Import OS.

(** A well-formed tree: in every directory the entry names are proper
    names without a slash, and no name occurs twice. *)
Inductive wf_node : node → Prop :=
| wf_file d : wf_node (File d)
| wf_dir es :
    NoDup (map fst es) →
    (∀ c n, In (c, n) es → clean_name c ∧ slash_free c = true) →
    (∀ c n, In (c, n) es → wf_node n) →
    wf_node (Dir es).

(** The places of the regular files below a node whose name ends with
    [.ctex], in the order in which the walk collects them. *)
Fixpoint ctex_positions (n : node) : list (list string) :=
  match n with
  | File _ => []
  | Dir es =>
      flat_map (fun e : string * node =>
                  match e.2 with
                  | File _ =>
                      if Py.endswith (Py.lower e.1) ".ctex" then [[e.1]] else []
                  | Dir _ => []
                  end) es
      ++ flat_map (fun e : string * node => map (cons e.1) (ctex_positions e.2)) es
  end.

End TreeVocabulary.


(** * Properties *)

(** ** The file system tree *)
Section Tree.
Import OS.

Lemma entry_get_put_eq c n es : entry_get c (entry_put c n es) = Some n.
Proof.
  induction es as [|[c' n'] es IH]; simpl.
  - by rewrite String.eqb_refl.
  - destruct (String.eqb_spec c c') as [->|Hne]; simpl.
    + by rewrite String.eqb_refl.
    + by rewrite (proj2 (String.eqb_neq c c') Hne).
Qed.

Lemma entry_get_put_ne c c0 n es :
  c0 ≠ c → entry_get c0 (entry_put c n es) = entry_get c0 es.
Proof.
  intros Hne. induction es as [|[c' n'] es IH]; simpl.
  - by rewrite (proj2 (String.eqb_neq c0 c) Hne).
  - destruct (String.eqb_spec c c') as [->|Hcc]; simpl.
    + by rewrite (proj2 (String.eqb_neq c0 c') Hne).
    + by rewrite IH.
Qed.

Lemma entry_put_put c a b es :
  entry_put c a (entry_put c b es) = entry_put c a es.
Proof.
  induction es as [|[c' n'] es IH]; simpl.
  - by rewrite String.eqb_refl.
  - destruct (String.eqb_spec c c') as [->|Hcc]; simpl.
    + by rewrite String.eqb_refl.
    + by rewrite (proj2 (String.eqb_neq c c') Hcc), IH.
Qed.

Lemma lookup_app t k1 k2 :
  lookup t (k1 ++ k2) =
  match lookup t k1 with Some n => lookup n k2 | None => None end.
Proof.
  revert t. induction k1 as [|c k1 IH]; intros t; simpl; [done|].
  destruct t as [d|es]; [done|]. destruct (entry_get c es); [apply IH|done].
Qed.

Lemma is_dir_at_prefix t k c :
  is_Some (lookup t (k ++ [c])) → is_dir_at t k = true.
Proof.
  unfold is_dir_at. rewrite lookup_app. intros [n Hn].
  destruct (lookup t k) as [[d|es]|]; simpl in Hn; done.
Qed.

Lemma is_dir_at_removelast t k :
  is_dir_at t k = true → is_dir_at t (removelast k) = true.
Proof.
  destruct k as [|c0 k0 _] using rev_ind; [done|].
  rewrite removelast_last. intros Hd. apply (is_dir_at_prefix t k0 c0).
  unfold is_dir_at in Hd. destruct (lookup t (k0 ++ [c0])); [eauto|done].
Qed.

Lemma dirs_kept_refl t : dirs_kept t t.
Proof. by intros k. Qed.

Lemma dirs_kept_trans t1 t2 t3 :
  dirs_kept t1 t2 → dirs_kept t2 t3 → dirs_kept t1 t3.
Proof. intros H12 H23 k Hk. by apply H23, H12. Qed.

Lemma dirs_kept_put k n t :
  is_dir_at t k = false → dirs_kept t (put k n t).
Proof.
  revert t. induction k as [|c k IH]; intros t Hnd k0 Hk0.
  - destruct t as [d|es]; [|done].
    destruct k0; unfold is_dir_at in Hk0; simpl in Hk0; done.
  - destruct t as [d|es]; simpl; [done|].
    destruct (entry_get c es) as [child|] eqn:Hc.
    + destruct k0 as [|c0 k0]; [done|].
      unfold is_dir_at in *. simpl in *. rewrite Hc in Hnd.
      destruct (String.eqb_spec c0 c) as [->|Hne].
      * rewrite entry_get_put_eq. rewrite Hc in Hk0.
        apply (IH child Hnd k0 Hk0).
      * by rewrite entry_get_put_ne.
    + destruct k as [|c1 k]; [|done].
      destruct k0 as [|c0 k0]; [done|].
      unfold is_dir_at in *. simpl in *.
      destruct (String.eqb_spec c0 c) as [->|Hne].
      * by rewrite Hc in Hk0.
      * by rewrite entry_get_put_ne.
Qed.

Lemma lookup_put_eq k n t : put_ok t k → lookup (put k n t) k = Some n.
Proof.
  revert t. induction k as [|c k IH]; intros t Hok; [done|].
  assert (∃ es, t = Dir es) as [es ->].
  { destruct t as [d|es]; [|eauto]. destruct Hok as [[? H]|(k' & c' & Hk & Hd)].
    - done.
    - destruct k'; unfold is_dir_at in Hd; simpl in Hd; done. }
  simpl. destruct (entry_get c es) as [child|] eqn:Hc.
  - simpl. rewrite entry_get_put_eq. apply IH.
    destruct Hok as [H|(k' & c' & Hk & Hd)].
    + left. simpl in H. by rewrite Hc in H.
    + destruct k' as [|c0 k']; simplify_eq/=; [by left|].
      right. exists k', c'. split; [done|].
      unfold is_dir_at in *. simpl in Hd. by rewrite Hc in Hd.
  - destruct Hok as [[? H]|(k' & c' & Hk & Hd)].
    + simpl in H. by rewrite Hc in H.
    + destruct k' as [|c0 k']; simplify_eq/=.
      * by rewrite entry_get_put_eq.
      * unfold is_dir_at in Hd. simpl in Hd. by rewrite Hc in Hd.
Qed.

Lemma put_put k a b t : put k a (put k b t) = put k a t.
Proof.
  revert t. induction k as [|c k IH]; intros t; [done|].
  destruct t as [d|es]; [done|]. simpl.
  destruct (entry_get c es) as [child|] eqn:Hc.
  - simpl. by rewrite entry_get_put_eq, entry_put_put, IH.
  - destruct k as [|c1 k]; simpl.
    + by rewrite entry_get_put_eq, entry_put_put.
    + by rewrite Hc.
Qed.

Lemma walk_components_kept p t t' cur comps k :
  dirs_kept t t' →
  walk_components p t cur comps = inr k →
  walk_components p t' cur comps = inr k.
Proof.
  intros Hk. revert cur. induction comps as [|c comps IH]; intros cur; [done|].
  simpl. destruct (lookup t cur) as [[d|es]|] eqn:Hl; try done.
  assert (is_dir_at t' cur = true) as Hd'.
  { apply Hk. unfold is_dir_at. by rewrite Hl. }
  unfold is_dir_at in Hd'. destruct (lookup t' cur) as [[d'|es']|]; try done.
  repeat case_match; apply IH.
Qed.

Lemma resolve_kept t t' c p k :
  dirs_kept t t' → resolve t c p = inr k → resolve t' c p = inr k.
Proof.
  intros Hk. unfold resolve. destruct p; [done|].
  by apply walk_components_kept.
Qed.

(** What a successful resolution has checked. *)
Lemma walk_components_target p t cur comps k :
  comps ≠ [] →
  walk_components p t cur comps = inr k →
  is_dir_at t k = true ∨ ∃ k' c, k = k' ++ [c] ∧ is_dir_at t k' = true.
Proof.
  revert cur. induction comps as [|c comps IH]; intros cur Hne; [done|].
  simpl. destruct (lookup t cur) as [[d|es]|] eqn:Hl; try done.
  assert (is_dir_at t cur = true) as Hd by (unfold is_dir_at; by rewrite Hl).
  destruct comps as [|c1 comps].
  - simpl. repeat case_match; intros [= <-].
    + by left.
    + left. by apply is_dir_at_removelast.
    + right. eauto.
  - repeat case_match; by apply IH.
Qed.

Lemma split_nonempty c s : Py.split c s ≠ [].
Proof. destruct s; simpl; repeat case_match; done. Qed.

Lemma resolve_target t c p k :
  resolve t c p = inr k →
  is_dir_at t k = true ∨ ∃ k' c, k = k' ++ [c] ∧ is_dir_at t k' = true.
Proof.
  unfold resolve. destruct p; [done|].
  apply walk_components_target, split_nonempty.
Qed.

Lemma resolve_put_ok t c p k : resolve t c p = inr k → put_ok t k.
Proof.
  intros [Hd|H]%resolve_target; [left|by right].
  unfold is_dir_at in Hd. destruct (lookup t k); [eauto|done].
Qed.

End Tree.

(** ** Reasoning about monadic code *)
Section Monad.
Import OS.

Lemma post_run {A} (c : M A) w Q r w' : c w = (r, w') → post c w Q → Q r w'.
Proof. unfold post. by intros ->. Qed.

Lemma post_ret {A} (a : A) w Q : Q (inr a) w → post (ret a) w Q.
Proof. done. Qed.

Lemma post_raise {A} e w (Q : Py.exn + A → world → Prop) :
  Q (inl e) w → post (raise e) w Q.
Proof. done. Qed.

Lemma post_lift {A} (r : Py.exn + A) w Q : Q r w → post (lift r) w Q.
Proof. done. Qed.

Lemma post_bind {A B} (m : M A) (k : A → M B) w Q :
  post m w (λ r w', match r with
                    | inr a => post (k a) w' Q
                    | inl e => Q (inl e) w'
                    end) →
  post (bind m k) w Q.
Proof. unfold post, bind. by destruct (m w) as [[e|a] w']. Qed.

Lemma post_try_except {A} (m : M A) h w Q :
  post m w (λ r w', match r with
                    | inr a => Q (inr a) w'
                    | inl e => post (h e) w' Q
                    end) →
  post (try_except m h) w Q.
Proof. unfold post, try_except. by destruct (m w) as [[e|a] w']. Qed.

Lemma post_syscall {A} (op : M A) t c fs Q :
  (∀ e fs', Q (inl e) (World t c fs')) →
  (∀ fs', post op (World t c fs') Q) →
  post (syscall op) (World t c fs) Q.
Proof.
  intros Hf Hop. unfold post, syscall. simpl.
  destruct fs as [|[e|] fs]; [apply Hop|apply Hf|apply Hop].
Qed.

Lemma post_close f t c fs Q :
  (∀ e fs', Q (inl e) (World t c fs')) →
  (∀ fs', Q (inr tt) (World t c fs')) →
  post (close f) (World t c fs) Q.
Proof. intros Hf Hs. apply post_syscall; [done|]. intros fs'. apply Hs. Qed.

Lemma post_with_open {A} opener (body : file_obj → M A) w Q :
  post opener w (λ r w1,
    match r with
    | inl e => Q (inl e) w1
    | inr f =>
        post (body f) w1 (λ r2 w2,
          post (close f) w2 (λ r3 w3,
            match r3 with
            | inl e => Q (inl e) w3
            | inr _ => Q r2 w3
            end))
    end) →
  post (with_open opener body) w Q.
Proof.
  unfold post, with_open. destruct (opener w) as [[e|f] w1]; simpl; [done|].
  destruct (body f w1) as [r2 w2]. simpl.
  by destruct (close f w2) as [[e|u] w3].
Qed.

Lemma post_open_rb p t c fs Q :
  (∀ e fs', Q (inl e) (World t c fs')) →
  (∀ k d fs', resolve t c p = inr k → lookup t k = Some (File d) →
              Q (inr (FileObj k 0)) (World t c fs')) →
  post (open_rb p) (World t c fs) Q.
Proof.
  intros Hf Hs. apply post_syscall; [done|]. intros fs'. unfold post. simpl.
  destruct (resolve t c p) as [e|k] eqn:Hr; simpl; [done|].
  destruct (lookup t k) as [[d|es]|] eqn:Hl; simpl; eauto.
Qed.

Lemma post_open_wb p t c fs Q :
  (∀ e fs', Q (inl e) (World t c fs')) →
  (∀ k fs', resolve t c p = inr k → is_dir_at t k = false →
            Q (inr (FileObj k 0)) (World (put k (File []) t) c fs')) →
  post (open_wb p) (World t c fs) Q.
Proof.
  intros Hf Hs. apply post_syscall; [done|]. intros fs'. unfold post. simpl.
  destruct (resolve t c p) as [e|k] eqn:Hr; simpl; [done|].
  specialize (Hs k fs' eq_refl). unfold is_dir_at in Hs.
  destruct (lookup t k) as [[d|es]|] eqn:Hl; simpl; eauto.
Qed.

Lemma post_seek_set f off t c fs Q :
  (∀ e fs', Q (inl e) (World t c fs')) →
  (∀ d fs', lookup t (fo_key f) = Some (File d) →
            Q (inr (FileObj (fo_key f) off)) (World t c fs')) →
  post (seek f off 0) (World t c fs) Q.
Proof.
  intros Hf Hs. apply post_syscall; [done|]. intros fs'.
  unfold post, file_data. simpl.
  destruct (lookup t (fo_key f)) as [[d|es]|] eqn:Hl; simpl; eauto.
Qed.

Lemma post_seek_end f off t c fs Q :
  (∀ e fs', Q (inl e) (World t c fs')) →
  (∀ d fs', lookup t (fo_key f) = Some (File d) →
            Q (inr (FileObj (fo_key f) (length d + off))) (World t c fs')) →
  post (seek f off 2) (World t c fs) Q.
Proof.
  intros Hf Hs. apply post_syscall; [done|]. intros fs'.
  unfold post, file_data. simpl.
  destruct (lookup t (fo_key f)) as [[d|es]|] eqn:Hl; simpl; eauto.
Qed.

Lemma post_tell f t c fs Q :
  (∀ e fs', Q (inl e) (World t c fs')) →
  (∀ fs', Q (inr (fo_pos f)) (World t c fs')) →
  post (tell f) (World t c fs) Q.
Proof. intros Hf Hs. apply post_syscall; [done|]. intros fs'. apply Hs. Qed.

Lemma post_read f n t c fs Q :
  (∀ e fs', Q (inl e) (World t c fs')) →
  (∀ d fs', lookup t (fo_key f) = Some (File d) →
     let got := match n with
                | Some n => firstn n (skipn (fo_pos f) d)
                | None => skipn (fo_pos f) d
                end in
     Q (inr (got, FileObj (fo_key f) (fo_pos f + length got))) (World t c fs')) →
  post (read f n) (World t c fs) Q.
Proof.
  intros Hf Hs. apply post_syscall; [done|]. intros fs'.
  unfold post, file_data. simpl.
  destruct (lookup t (fo_key f)) as [[d|es]|] eqn:Hl; simpl; eauto.
Qed.

Lemma post_write f data t c fs Q :
  (∀ e fs', Q (inl e) (World t c fs')) →
  (∀ d fs', lookup t (fo_key f) = Some (File d) →
     Q (inr (FileObj (fo_key f) (fo_pos f + length data)))
       (World (put (fo_key f)
                 (File (firstn (fo_pos f) d ++ data
                        ++ skipn (fo_pos f + length data) d)) t) c fs')) →
  post (write f data) (World t c fs) Q.
Proof.
  intros Hf Hs. apply post_syscall; [done|]. intros fs'.
  unfold post, file_data. simpl.
  destruct (lookup t (fo_key f)) as [[d|es]|] eqn:Hl; simpl; eauto.
Qed.

Lemma post_os_mkdir p t c fs Q :
  (∀ e fs', Q (inl e) (World t c fs')) →
  (∀ k fs', resolve t c p = inr k → lookup t k = None →
            Q (inr tt) (World (put k (Dir []) t) c fs')) →
  post (OS.mkdir p) (World t c fs) Q.
Proof.
  intros Hf Hs. apply post_syscall; [done|]. intros fs'. unfold post. simpl.
  destruct (resolve t c p) as [e|k] eqn:Hr; simpl; [done|].
  destruct (lookup t k) as [n|] eqn:Hl; simpl; eauto.
Qed.

End Monad.

(** ** Making directories *)
Section Mkdir.
Import OS.

Lemma os_mkdir_created t c p k :
  resolve t c p = inr k → lookup t k = None →
  dirs_kept t (put k (Dir []) t) ∧ dir_in (put k (Dir []) t) c p = true.
Proof.
  intros Hr Hl.
  assert (dirs_kept t (put k (Dir []) t)) as Hk.
  { apply dirs_kept_put. unfold is_dir_at. by rewrite Hl. }
  split; [done|]. unfold dir_in.
  rewrite (resolve_kept _ _ _ _ _ Hk Hr). unfold is_dir_at.
  by rewrite (lookup_put_eq _ _ _ (resolve_put_ok _ _ _ _ Hr)).
Qed.

Lemma post_mkdir_exist_ok p t c fs Q :
  mkdir_post t c (PurePath.str p) Q →
  post (Path.mkdir_exist_ok p) (World t c fs) Q.
Proof.
  intros HQ. unfold Path.mkdir_exist_ok. apply post_try_except.
  apply post_os_mkdir.
  - intros e fs'. destruct e; try (apply post_raise, HQ; [apply dirs_kept_refl|done]).
    apply post_bind. unfold post, isdir, dir_at. simpl.
    destruct (dir_in t c (PurePath.str p)) eqn:Hd; simpl.
    + apply HQ; [apply dirs_kept_refl|done].
    + apply HQ; [apply dirs_kept_refl|done].
  - intros k fs' Hr Hl. destruct (os_mkdir_created _ _ _ _ Hr Hl). by apply HQ.
Qed.

Lemma mkdir_parents_unfold rt rparts :
  Path.mkdir_parents rt rparts =
  let self := PurePath.Build rt (rev rparts) in
  try_except (OS.mkdir (PurePath.str self))
    (fun e =>
       match e with
       | Py.FileNotFoundError _ =>
           match rparts with
           | [] => raise e
           | _ :: up =>
               bind (Path.mkdir_parents rt up) (fun _ => Path.mkdir_exist_ok self)
           end
       | Py.OSError _ =>
           bind (isdir (PurePath.str self))
                (fun b => if b then ret tt else raise e)
       | _ => raise e
       end).
Proof. by destruct rparts. Qed.

Lemma post_mkdir_parents rt rparts t c fs Q :
  mkdir_post t c (PurePath.str (PurePath.Build rt (rev rparts))) Q →
  post (Path.mkdir_parents rt rparts) (World t c fs) Q.
Proof.
  revert t fs Q. induction rparts as [|x up IH]; intros t fs Q HQ;
    rewrite mkdir_parents_unfold; cbv zeta; apply post_try_except;
    apply post_os_mkdir.
  - intros e fs'. destruct e; try (apply post_raise, HQ; [apply dirs_kept_refl|done]).
    apply post_bind. unfold post, isdir, dir_at. simpl.
    destruct (dir_in t c _) eqn:Hd; simpl; (apply HQ; [apply dirs_kept_refl|done]).
  - intros k fs' Hr Hl. destruct (os_mkdir_created _ _ _ _ Hr Hl). by apply HQ.
  - intros e fs'. destruct e; try (apply post_raise, HQ; [apply dirs_kept_refl|done]).
    + apply post_bind. apply IH. intros r t1 fs1 Hk1 _.
      destruct r as [e|u]; [by apply HQ|].
      apply post_mkdir_exist_ok. intros r t2 fs2 Hk2 Hd.
      apply HQ; [|done]. by eapply dirs_kept_trans.
    + apply post_bind. unfold post, isdir, dir_at. simpl.
      destruct (dir_in t c _) eqn:Hd; simpl; (apply HQ; [apply dirs_kept_refl|done]).
  - intros k fs' Hr Hl. destruct (os_mkdir_created _ _ _ _ Hr Hl). by apply HQ.
Qed.

Lemma post_path_mkdir p t c fs Q :
  mkdir_post t c (PurePath.str p) Q →
  post (Path.mkdir p) (World t c fs) Q.
Proof.
  intros HQ. unfold Path.mkdir. apply post_mkdir_parents.
  rewrite rev_involutive. by destruct p.
Qed.

(** Without environment faults, making a directory that is there already
    changes nothing. *)
Lemma path_mkdir_noop p t c :
  dir_in t c (PurePath.str p) = true →
  Path.mkdir p (World t c []) = (inr tt, World t c []).
Proof.
  intros Hd. unfold Path.mkdir. rewrite mkdir_parents_unfold. cbv zeta.
  rewrite rev_involutive.
  replace (PurePath.Build (PurePath.root p) (PurePath.parts p)) with p
    by (by destruct p).
  unfold try_except, OS.mkdir, syscall. simpl.
  unfold dir_in in Hd. destruct (resolve t c (PurePath.str p)) as [e|k] eqn:Hr; [done|].
  unfold is_dir_at in Hd. destruct (lookup t k) as [[d|es]|] eqn:Hl; try done.
  unfold eexist, bind, isdir, dir_at, dir_in. simpl. rewrite Hr.
  unfold is_dir_at. by rewrite Hl.
Qed.

End Mkdir.

(** ** The converter, step by step *)
Section Converter.
Import OS.

Lemma unpack_le_u32_length b :
  length b = 4 → ∃ ft, Py.unpack_le_u32 b = inr ft.
Proof.
  destruct b as [|b0 [|b1 [|b2 [|b3 [|b4 b]]]]]; simpl; try done. eauto.
Qed.

Lemma header_read_length (d : bytes) :
  56 ≤ length d → length (firstn 4 (skipn 36 d)) = 4.
Proof. intros H. rewrite length_firstn, length_skipn. lia. Qed.

Ltac body_fail :=
  intros; repeat (apply post_close; intros);
  (split; [done|]); first [by left | right; eauto].

Lemma convert_body_post ctex_path output_dir t c fs :
  post (convert_body ctex_path output_dir) (World t c fs)
       (body_post ctex_path output_dir t c).
Proof.
  unfold convert_body. apply post_with_open, post_open_rb; [body_fail|].
  intros k d fs1 Hr Hl.
  assert (file_in t c ctex_path = Some d) as Hfile.
  { unfold file_in. by rewrite Hr, Hl. }
  apply post_bind, post_seek_end; [body_fail|]. simpl. intros d0 fs2 Hd0.
  assert (d0 = d) as -> by congruence. clear Hd0.
  apply post_bind, post_tell; [body_fail|]. simpl. intros fs3.
  apply post_bind, post_seek_set; [body_fail|]. simpl. intros _ fs4 _.
  rewrite Nat.add_0_r. destruct (Nat.ltb_spec (length d) 56) as [Hlt|Hge].
  { apply post_ret, post_close; [body_fail|]. intros fs5.
    split; [done|]. exists d. split; [done|]. simpl. auto. }
  apply post_bind, post_seek_set; [body_fail|]. simpl. intros _ fs5 _.
  apply post_bind, post_read; [body_fail|]. simpl. intros d0 fs6 Hd0.
  assert (d0 = d) as -> by congruence. clear Hd0.
  pose proof (header_read_length d Hge) as Hlen. rewrite Hlen. simpl.
  destruct (unpack_le_u32_length _ Hlen) as [ft Hft].
  apply post_bind. rewrite Hft. apply post_lift.
  apply post_bind, post_seek_set; [body_fail|]. simpl. intros _ fs7 _.
  apply post_bind, post_read; [body_fail|]. simpl. intros d0 fs8 Hd0.
  assert (d0 = d) as -> by congruence. clear Hd0.
  pose proof (length_skipn 56 d) as Hpl.
  destruct (skipn 56 d) as [|b payload] eqn:Himg.
  { apply post_ret, post_close; [body_fail|]. intros fs9.
    split; [done|]. exists d. split; [done|]. simpl in *.
    split; [done|]. split; [done|]. right. split; [lia|done]. }
  assert (56 < length d) as Hbig by (simpl in Hpl; lia).
  rewrite <- Himg. clear Hpl.
  apply post_bind, post_path_mkdir. intros r t1 fs9 Hk1 Hdir.
  destruct r as [e|[]]; [body_fail|].
  apply post_bind, post_with_open, post_open_wb; [body_fail|].
  intros kout fs10 Hrout Hnd.
  apply post_write; [body_fail|]. simpl. intros d0 fs11 Hd0.
  rewrite (lookup_put_eq _ _ _ (resolve_put_ok _ _ _ _ Hrout)) in Hd0.
  injection Hd0 as <-. simpl. rewrite skipn_nil, app_nil_r, put_put.
  apply post_close; [body_fail|]. intros fs12.
  apply post_ret, post_close; [body_fail|]. intros fs13.
  split; [done|]. exists d. split; [done|]. simpl.
  exists ft, t1, kout. by rewrite Himg.
Qed.

End Converter.

(** ** Runs without environment faults *)
Section Quiet.
Import OS.

Lemma run_bind {A B} (m : M A) (k : A → M B) w a w1 :
  m w = (inr a, w1) → bind m k w = k a w1.
Proof. unfold bind. by intros ->. Qed.

Lemma run_with_open {A} opener (body : file_obj → M A) w f w1 r w2 w3 :
  opener w = (inr f, w1) → body f w1 = (r, w2) → close f w2 = (inr tt, w3) →
  with_open opener body w = (r, w3).
Proof. unfold with_open. by intros -> -> ->. Qed.

Lemma open_rb_quiet p t c k d :
  resolve t c p = inr k → lookup t k = Some (File d) →
  open_rb p (World t c []) = (inr (FileObj k 0), World t c []).
Proof. intros Hr Hl. unfold open_rb, syscall. simpl. by rewrite Hr, Hl. Qed.

Lemma open_wb_quiet p t c k :
  resolve t c p = inr k → is_dir_at t k = false →
  open_wb p (World t c []) =
  (inr (FileObj k 0), World (put k (File []) t) c []).
Proof.
  intros Hr Hd. unfold open_wb, syscall. simpl. rewrite Hr.
  unfold is_dir_at in Hd. by destruct (lookup t k) as [[d|es]|].
Qed.

Lemma seek_set_quiet f off t c d :
  lookup t (fo_key f) = Some (File d) →
  seek f off 0 (World t c []) = (inr (FileObj (fo_key f) off), World t c []).
Proof. intros Hl. unfold seek, syscall, file_data. simpl. by rewrite Hl. Qed.

Lemma seek_end_quiet f off t c d :
  lookup t (fo_key f) = Some (File d) →
  seek f off 2 (World t c []) =
  (inr (FileObj (fo_key f) (length d + off)), World t c []).
Proof. intros Hl. unfold seek, syscall, file_data. simpl. by rewrite Hl. Qed.

Lemma tell_quiet f t c :
  tell f (World t c []) = (inr (fo_pos f), World t c []).
Proof. done. Qed.

Lemma read_quiet f n t c d :
  lookup t (fo_key f) = Some (File d) →
  read f n (World t c []) =
  (let got := match n with
              | Some n => firstn n (skipn (fo_pos f) d)
              | None => skipn (fo_pos f) d
              end in
   (inr (got, FileObj (fo_key f) (fo_pos f + length got)), World t c [])).
Proof. intros Hl. unfold read, syscall, file_data. simpl. by rewrite Hl. Qed.

Lemma write_quiet f data t c d :
  lookup t (fo_key f) = Some (File d) →
  write f data (World t c []) =
  (inr (FileObj (fo_key f) (fo_pos f + length data)),
   World (put (fo_key f)
            (File (firstn (fo_pos f) d ++ data
                   ++ skipn (fo_pos f + length data) d)) t) c []).
Proof. intros Hl. unfold write, syscall, file_data. simpl. by rewrite Hl. Qed.

Lemma close_quiet f t c : close f (World t c []) = (inr tt, World t c []).
Proof. done. Qed.

(** The first statements of the body, up to the size check. *)
Lemma convert_body_too_small ctex_path output_dir t c k d :
  resolve t c ctex_path = inr k → lookup t k = Some (File d) →
  length d < 56 →
  convert_body ctex_path output_dir (World t c []) =
  (inr (false, "", "File too small (" +:+ Py.fmt_nat (length d)
                   +:+ " bytes), minimum 56 bytes required"),
   World t c []).
Proof.
  intros Hr Hl Hlt. unfold convert_body.
  eapply run_with_open; [eapply open_rb_quiet; eassumption| |apply close_quiet].
  erewrite run_bind by (eapply seek_end_quiet; simpl; eassumption).
  erewrite run_bind by apply tell_quiet.
  erewrite run_bind by (eapply seek_set_quiet; simpl; eassumption).
  simpl. rewrite Nat.add_0_r.
  by destruct (Nat.ltb_spec (length d) 56); [|lia].
Qed.

Lemma convert_body_header_only ctex_path output_dir t c k d :
  resolve t c ctex_path = inr k → lookup t k = Some (File d) →
  length d = 56 →
  convert_body ctex_path output_dir (World t c []) =
  (inr (false, "", "No image data found after header"), World t c []).
Proof.
  intros Hr Hl Hlen. unfold convert_body.
  eapply run_with_open; [eapply open_rb_quiet; eassumption| |apply close_quiet].
  erewrite run_bind by (eapply seek_end_quiet; simpl; eassumption).
  erewrite run_bind by apply tell_quiet.
  erewrite run_bind by (eapply seek_set_quiet; simpl; eassumption).
  simpl. rewrite Nat.add_0_r.
  destruct (Nat.ltb_spec (length d) 56); [lia|].
  erewrite run_bind by (eapply seek_set_quiet; simpl; eassumption).
  erewrite run_bind by (eapply read_quiet; simpl; eassumption).
  simpl. assert (56 ≤ length d) as Hge by lia.
  pose proof (header_read_length d Hge) as Hl4. rewrite Hl4. simpl.
  destruct (unpack_le_u32_length _ Hl4) as [ft Hft].
  erewrite run_bind by (unfold lift; by rewrite Hft).
  erewrite run_bind by (eapply seek_set_quiet; simpl; eassumption).
  erewrite run_bind by (eapply read_quiet; simpl; eassumption).
  simpl. pose proof (length_skipn 56 d) as Hs.
  destruct (skipn 56 d); [done|simpl in Hs; lia].
Qed.

(** A whole run where the output directory exists already. *)
Lemma convert_body_quiet ctex_path output_dir t c k d ft kout :
  let out := output_path ctex_path output_dir (ext ft) in
  resolve t c ctex_path = inr k → lookup t k = Some (File d) →
  56 < length d →
  Py.unpack_le_u32 (firstn 4 (skipn 36 d)) = inr ft →
  dir_in t c (PurePath.str (PurePath.parent out)) = true →
  resolve t c (PurePath.str out) = inr kout →
  is_dir_at t kout = false →
  convert_body ctex_path output_dir (World t c []) =
  (inr (true, PurePath.str out,
        "Format: " +:+ format_name ft +:+ ", Size: "
        +:+ Py.fmt_nat (length (skipn 56 d)) +:+ " bytes"),
   World (put kout (File (skipn 56 d)) t) c []).
Proof.
  intros out Hr Hl Hlen Hft Hdir Hrout Hnd. unfold convert_body.
  eapply run_with_open; [eapply open_rb_quiet; eassumption| |apply close_quiet].
  erewrite run_bind by (eapply seek_end_quiet; simpl; eassumption).
  erewrite run_bind by apply tell_quiet.
  erewrite run_bind by (eapply seek_set_quiet; simpl; eassumption).
  simpl. rewrite Nat.add_0_r.
  destruct (Nat.ltb_spec (length d) 56); [lia|].
  erewrite run_bind by (eapply seek_set_quiet; simpl; eassumption).
  erewrite run_bind by (eapply read_quiet; simpl; eassumption).
  simpl. assert (56 ≤ length d) as Hge by lia.
  rewrite (header_read_length d Hge). simpl.
  erewrite run_bind by (unfold lift; by rewrite Hft).
  erewrite run_bind by (eapply seek_set_quiet; simpl; eassumption).
  erewrite run_bind by (eapply read_quiet; simpl; eassumption).
  simpl. pose proof (length_skipn 56 d) as Hs.
  destruct (skipn 56 d) as [|b payload] eqn:Himg; [simpl in Hs; lia|].
  erewrite run_bind by (by apply path_mkdir_noop).
  erewrite run_bind.
  2:{ eapply run_with_open; [by apply open_wb_quiet| |apply close_quiet].
      eapply write_quiet. simpl.
      apply lookup_put_eq. by eapply resolve_put_ok. }
  simpl. by rewrite app_nil_r, put_put.
Qed.

End Quiet.

(** ** Strings and pure paths *)
Section Strings.

Lemma append_cons a (s t : string) : String a s +:+ t = String a (s +:+ t).
Proof. done. Qed.

Lemma append_nil_r s : s +:+ "" = s.
Proof. induction s as [|x s IH]; [done|]. by rewrite append_cons, IH. Qed.

Lemma append_assoc (a b c : string) : (a +:+ b) +:+ c = a +:+ (b +:+ c).
Proof. induction a as [|x a IH]; [done|]. by rewrite !append_cons, IH. Qed.

Lemma length_append (a b : string) :
  String.length (a +:+ b) = String.length a + String.length b.
Proof. induction a as [|x a IH]; [done|]. rewrite append_cons. simpl. by rewrite IH. Qed.

Lemma append_inv_head (a b c : string) : a +:+ b = a +:+ c → b = c.
Proof. induction a as [|x a IH]; [done|]. rewrite !append_cons. intros [= H]. auto. Qed.

Lemma slash_free_append a b :
  slash_free (a +:+ b) = slash_free a && slash_free b.
Proof.
  induction a as [|x a IH]; [done|]. rewrite append_cons. simpl.
  by rewrite IH, andb_assoc.
Qed.

Lemma slash_free_substring n s :
  slash_free s = true → slash_free (String.substring 0 n s) = true.
Proof.
  revert n. induction s as [|a s IH]; intros [|n]; simpl; try done.
  intros [-> Hs]%andb_true_iff. simpl. auto.
Qed.

Lemma slash_free_uint d : slash_free (NilEmpty.string_of_uint d) = true.
Proof. induction d; simpl; done. Qed.

Lemma split_slash_free s : Forall (λ x, slash_free x = true) (Py.split "/" s).
Proof.
  induction s as [|a s IH]; simpl; [by repeat constructor|].
  destruct (Ascii.eqb a "/") eqn:Ha; [by constructor|].
  destruct (Py.split "/" s) as [|h l]; [repeat constructor; simpl; by rewrite Ha|].
  inversion IH; subst. constructor; [|done]. simpl. by rewrite Ha.
Qed.

Lemma split_component s : slash_free s = true → Py.split "/" s = [s].
Proof.
  induction s as [|a s IH]; simpl; [done|].
  intros [Ha Hs]%andb_true_iff. apply negb_true_iff in Ha. rewrite Ha.
  by rewrite (IH Hs).
Qed.

Lemma parts_slash_free p :
  Forall (λ x, slash_free x = true) (PurePath.parts (PurePath.parse p)).
Proof.
  unfold PurePath.parse. destruct (PurePath.splitroot p) as [rt rel]. simpl.
  pose proof (split_slash_free rel) as H. induction H; simpl; [done|].
  case_match; [by constructor|done].
Qed.

Lemma name_slash_free p : slash_free (PurePath.name (PurePath.parse p)) = true.
Proof.
  unfold PurePath.name. pose proof (parts_slash_free p) as H.
  induction H as [|x l Hx Hl IH]; [done|]. destruct l; [done|]. apply IH.
Qed.

Lemma stem_slash_free p : slash_free (PurePath.stem (PurePath.parse p)) = true.
Proof.
  unfold PurePath.stem. pose proof (name_slash_free p).
  case_match; [|done]. by apply slash_free_substring.
Qed.

(** A string without a slash that is neither empty nor ["."] is one path
    component. *)
Lemma parse_component seg :
  slash_free seg = true → seg ≠ "" → seg ≠ "." →
  PurePath.parse seg = PurePath.Build "" [seg].
Proof.
  intros Hs Hne Hnd. unfold PurePath.parse.
  assert (PurePath.splitroot seg = ("", seg)) as ->.
  { destruct seg as [|a seg]; [done|]. simpl in Hs.
    apply andb_true_iff in Hs as [Ha _]. apply negb_true_iff in Ha.
    unfold PurePath.splitroot.
    destruct (Ascii.eqb_spec a "/") as [->|Hne']; [done|].
    destruct a as [[] [] [] [] [] [] [] []]; done. }
  rewrite (split_component _ Hs). simpl.
  rewrite (proj2 (String.eqb_neq seg "") Hne).
  by rewrite (proj2 (String.eqb_neq seg ".") Hnd).
Qed.

Lemma div_component dir seg :
  slash_free seg = true → seg ≠ "" → seg ≠ "." →
  PurePath.div dir seg =
  PurePath.Build (PurePath.root dir) (PurePath.parts dir ++ [seg]).
Proof.
  intros Hs Hne Hnd. unfold PurePath.div. by rewrite parse_component.
Qed.

Lemma join_snoc l x :
  Py.join "/" (l ++ [x]) =
  match l with [] => x | _ :: _ => Py.join "/" l +:+ "/" +:+ x end.
Proof.
  induction l as [|y l IH]; [done|].
  destruct l as [|z l]; [done|].
  change (Py.join "/" ((y :: z :: l) ++ [x]))
    with (y +:+ "/" +:+ Py.join "/" ((z :: l) ++ [x])).
  rewrite IH.
  change (Py.join "/" (y :: z :: l)) with (y +:+ "/" +:+ Py.join "/" (z :: l)).
  by rewrite !append_assoc.
Qed.

Lemma str_nonempty p : PurePath.str p ≠ "".
Proof. unfold PurePath.str. by destruct (PurePath.format p). Qed.

(** The text of a path that ends with the component [seg]. *)
Lemma str_snoc rt l seg :
  seg ≠ "" →
  PurePath.str (PurePath.Build rt (l ++ [seg])) =
  PurePath.format (PurePath.Build rt l)
  +:+ match l with [] => "" | _ :: _ => "/" end +:+ seg.
Proof.
  intros Hne. unfold PurePath.str, PurePath.format. simpl. rewrite join_snoc.
  assert (∀ s s', s ≠ "" → s = s' →
            match s with "" => "." | String a s0 => String a s0 end = s')
    as Hstr by (by intros [] ? ? <-).
  apply Hstr.
  - intros H. apply (f_equal String.length) in H.
    destruct l; rewrite !length_append in H; destruct seg; simpl in H;
      done || lia.
  - destruct l as [|y l]; [by rewrite append_nil_r|]. by rewrite !append_assoc.
Qed.

End Strings.

(** ** The extension table *)
Section Formats.

Lemma format_map_miss t :
  t ≠ 0%N → t ≠ 1%N → t ≠ 2%N → t ≠ 3%N → format_map !! t = None.
Proof.
  intros. unfold format_map.
  rewrite !lookup_insert_ne by done. by apply lookup_singleton_ne.
Qed.

Lemma ext_cases t :
  (t = 0%N ∧ ext t = ".unknown") ∨ (t = 1%N ∧ ext t = ".png") ∨
  (t = 2%N ∧ ext t = ".webp") ∨ (t = 3%N ∧ ext t = ".basis") ∨
  (t ≠ 0%N ∧ t ≠ 1%N ∧ t ≠ 2%N ∧ t ≠ 3%N ∧ ext t = ".format" +:+ Py.fmt_N t).
Proof.
  destruct (decide (t = 0%N)) as [->|]; [by left|].
  destruct (decide (t = 1%N)) as [->|]; [by right; left|].
  destruct (decide (t = 2%N)) as [->|]; [by right; right; left|].
  destruct (decide (t = 3%N)) as [->|]; [by right; right; right; left|].
  do 4 right. repeat split; try done.
  unfold ext, Py.dict_get. by rewrite format_map_miss.
Qed.

Lemma fmt_N_inj t1 t2 : Py.fmt_N t1 = Py.fmt_N t2 → t1 = t2.
Proof.
  unfold Py.fmt_N. intros H.
  apply (f_equal NilEmpty.uint_of_string) in H. rewrite !NilEmpty.usu in H.
  injection H as H. apply (f_equal N.of_uint) in H.
  by rewrite !DecimalN.Unsigned.of_to in H.
Qed.

Lemma ext_inj t1 t2 : ext t1 = ext t2 → t1 = t2.
Proof.
  destruct (ext_cases t1) as [[-> ->]|[[-> ->]|[[-> ->]|[[-> ->]|(?&?&?&?&->)]]]];
  destruct (ext_cases t2) as [[-> ->]|[[-> ->]|[[-> ->]|[[-> ->]|(?&?&?&?&->)]]]];
    try done.
  intros Heq. by apply append_inv_head, fmt_N_inj in Heq.
Qed.

Lemma ext_slash_free t : slash_free (ext t) = true.
Proof.
  destruct (ext_cases t) as [[-> ->]|[[-> ->]|[[-> ->]|[[-> ->]|(?&?&?&?&->)]]]];
    try done.
  rewrite slash_free_append. simpl. apply slash_free_uint.
Qed.

Lemma ext_length t : 2 ≤ String.length (ext t).
Proof.
  destruct (ext_cases t) as [[-> ->]|[[-> ->]|[[-> ->]|[[-> ->]|(?&?&?&?&->)]]]];
    simpl; lia.
Qed.

(** The name of the output file is one path component. *)
Lemma output_name_component p t :
  let seg := PurePath.stem (PurePath.parse p) +:+ ext t in
  slash_free seg = true ∧ seg ≠ "" ∧ seg ≠ ".".
Proof.
  intros seg. pose proof (ext_length t) as Hl.
  assert (2 ≤ String.length seg) as Hs.
  { unfold seg. rewrite length_append. lia. }
  split; [|split].
  - unfold seg. by rewrite slash_free_append, stem_slash_free, ext_slash_free.
  - intros H. rewrite H in Hs. simpl in Hs. lia.
  - intros H. rewrite H in Hs. simpl in Hs. lia.
Qed.

Lemma output_path_shape p od t :
  output_path p od (ext t) =
  PurePath.Build (PurePath.root (output_parent p od))
    (PurePath.parts (output_parent p od)
     ++ [PurePath.stem (PurePath.parse p) +:+ ext t]).
Proof.
  destruct (output_name_component p t) as (Hs & Hne & Hnd).
  unfold output_path, output_parent.
  destruct (truthy od); by apply div_component.
Qed.

Lemma output_path_name p od t :
  PurePath.name (output_path p od (ext t)) =
  PurePath.stem (PurePath.parse p) +:+ ext t.
Proof.
  rewrite output_path_shape. unfold PurePath.name. simpl. apply last_last.
Qed.

Lemma output_path_parent p od t :
  PurePath.parent (output_path p od (ext t)) = output_parent p od.
Proof.
  rewrite output_path_shape. unfold PurePath.parent. simpl.
  rewrite removelast_last. by destruct (output_parent p od).
Qed.

Lemma output_path_str p od t :
  PurePath.str (output_path p od (ext t)) =
  PurePath.format (output_parent p od)
  +:+ match PurePath.parts (output_parent p od) with
      | [] => ""
      | _ :: _ => "/"
      end
  +:+ PurePath.stem (PurePath.parse p) +:+ ext t.
Proof.
  destruct (output_name_component p t) as (Hs & Hne & Hnd).
  rewrite output_path_shape, str_snoc by done.
  by destruct (output_parent p od).
Qed.

End Formats.

(** ** The claims about [convert_ctex_to_image] *)
Section Claims.
Import OS.

Lemma body_run p od w r w' :
  convert_body p od w = (r, w') → body_post p od (tree w) (cwd w) r w'.
Proof. destruct w as [t c fs]. intros H. apply (post_run _ _ _ _ _ H), convert_body_post. Qed.

(** What the [except] clause makes of the outcome of the body. *)
Lemma convert_outcome p od w r w' :
  convert_ctex_to_image p od w = (r, w') →
  ∃ res, r = inr res ∧
    (convert_body p od w = (inr res, w') ∨
     ∃ e, convert_body p od w = (inl e, w') ∧
          res = (false, "", "Error processing file: " +:+ Py.exn_str e)).
Proof.
  unfold convert_ctex_to_image, try_except.
  destruct (convert_body p od w) as [[e|res] w1]; simpl; intros [= <- <-];
    (eexists; split; [done|]); [right|left]; eauto.
Qed.

Lemma convert_success p od w out msg w' :
  convert_ctex_to_image p od w = (inr (true, out, msg), w') →
  body_post p od (tree w) (cwd w) (inr (true, out, msg)) w'.
Proof.
  intros (res & [= <-] & [H|(e & H & [=])])%convert_outcome.
  by apply body_run.
Qed.

Lemma file_after_put t c p k d :
  resolve t c p = inr k → is_dir_at t k = false →
  file_in (put k (File d) t) c p = Some d.
Proof.
  intros Hr Hnd. unfold file_in.
  rewrite (resolve_kept _ _ _ _ _ (dirs_kept_put k (File d) t Hnd) Hr).
  by rewrite (lookup_put_eq _ _ _ (resolve_put_ok _ _ _ _ Hr)).
Qed.

Lemma dir_in_kept t t' c p :
  dirs_kept t t' → dir_in t c p = true → dir_in t' c p = true.
Proof.
  intros Hk. unfold dir_in. destruct (resolve t c p) as [e|k] eqn:Hr; [done|].
  rewrite (resolve_kept _ _ _ _ _ Hk Hr). apply Hk.
Qed.

(** C1. When the conversion of a file of at least 56 bytes succeeds, the
    file that the returned output path names holds exactly the bytes of the
    input from offset 56 to the end: the same bytes, and as many. *)
Theorem payload_copied_verbatim p od w data out msg w' :
  file_at w p = Some data →
  56 ≤ length data →
  convert_ctex_to_image p od w = (inr (true, out, msg), w') →
  file_at w' out = Some (skipn 56 data) ∧
  length (skipn 56 data) = length data - 56.
Proof.
  intros Hfile Hlen [Hc (d & Hd & ft & t1 & kout & H)]%convert_success.
  unfold file_at in *. rewrite Hfile in Hd. injection Hd as <-.
  destruct H as (_ & _ & _ & _ & _ & _ & Hr & Hnd & ->). rewrite Hc.
  split; [by apply file_after_put|apply length_skipn].
Qed.

(** C2. For an input file shorter than 56 bytes the file system is left as
    it was, whatever the environment does; and when the environment raises
    no fault the result is the failure that reports the size of the file
    and the minimum of 56 bytes. *)
Theorem too_small_rejected p od w data r w' :
  file_at w p = Some data →
  length data < 56 →
  convert_ctex_to_image p od w = (r, w') →
  tree w' = tree w ∧
  (faults w = [] →
   w' = w ∧
   r = inr (false, "", "File too small (" +:+ Py.fmt_nat (length data)
                       +:+ " bytes), minimum 56 bytes required")).
Proof.
  intros Hfile Hlen Hrun. split.
  - apply convert_outcome in Hrun as (res & -> & [H|(e & H & ->)]);
      apply body_run in H as [Hc H]; unfold file_at in Hfile.
    + destruct res as [[[] out] msg]; destruct H as (d & Hd & H);
        rewrite Hfile in Hd; injection Hd as <-.
      * destruct H as (? & ? & ? & ? & _). lia.
      * by destruct H.
    + destruct H as [H|(d & Hd & H)]; [done|].
      rewrite Hfile in Hd. injection Hd as <-. lia.
  - intros Hq. destruct w as [t c fs]. simpl in Hq. subst fs.
    unfold file_at, file_in in Hfile. simpl in Hfile.
    destruct (resolve t c p) as [e|k] eqn:Hr; [done|].
    destruct (lookup t k) as [[d|es]|] eqn:Hl; try done.
    injection Hfile as ->. revert Hrun.
    unfold convert_ctex_to_image, try_except.
    rewrite (convert_body_too_small p od t c k data Hr Hl Hlen).
    by intros [= <- <-].
Qed.

(** C5. For an input file of exactly 56 bytes the file system is left as it
    was, whatever the environment does; and when the environment raises no
    fault the result is the failure whose message is, letter for letter,
    "No image data found after header". *)
Theorem header_only_rejected p od w data r w' :
  file_at w p = Some data →
  length data = 56 →
  convert_ctex_to_image p od w = (r, w') →
  tree w' = tree w ∧
  (faults w = [] →
   w' = w ∧ r = inr (false, "", "No image data found after header")).
Proof.
  intros Hfile Hlen Hrun. split.
  - apply convert_outcome in Hrun as (res & -> & [H|(e & H & ->)]);
      apply body_run in H as [Hc H]; unfold file_at in Hfile.
    + destruct res as [[[] out] msg]; destruct H as (d & Hd & H);
        rewrite Hfile in Hd; injection Hd as <-.
      * destruct H as (? & ? & ? & ? & _). lia.
      * by destruct H.
    + destruct H as [H|(d & Hd & H)]; [done|].
      rewrite Hfile in Hd. injection Hd as <-. lia.
  - intros Hq. destruct w as [t c fs]. simpl in Hq. subst fs.
    unfold file_at, file_in in Hfile. simpl in Hfile.
    destruct (resolve t c p) as [e|k] eqn:Hr; [done|].
    destruct (lookup t k) as [[d|es]|] eqn:Hl; try done.
    injection Hfile as ->. revert Hrun.
    unfold convert_ctex_to_image, try_except.
    rewrite (convert_body_header_only p od t c k data Hr Hl Hlen).
    by intros [= <- <-].
Qed.

(** C9. For an input file of at least 56 bytes, a read of 4 bytes at offset
    36 that returns at all returns exactly 4 bytes, and the result
    "Failed to read format information" is never returned, whatever the
    environment does. *)
Theorem format_read_never_short p od w data :
  file_at w p = Some data →
  56 ≤ length data →
  (∀ k fs got f' w1,
     resolve (tree w) (cwd w) p = inr k →
     read (FileObj k 36) (Some 4) (World (tree w) (cwd w) fs)
       = (inr (got, f'), w1) →
     got = firstn 4 (skipn 36 data) ∧ length got = 4) ∧
  (∀ r w', convert_ctex_to_image p od w = (r, w') →
     r ≠ inr (false, "", "Failed to read format information")).
Proof.
  intros Hfile Hlen. split.
  - intros k fs got f' w1 Hr Hread.
    unfold file_at, file_in in Hfile. rewrite Hr in Hfile.
    destruct (lookup (tree w) k) as [[d|es]|] eqn:Hl; try done.
    injection Hfile as ->.
    assert (post (read (FileObj k 36) (Some 4)) (World (tree w) (cwd w) fs)
              (λ r _, ∀ got f', r = inr (got, f') →
                 got = firstn 4 (skipn 36 data) ∧ length got = 4)) as Hp.
    { apply post_read; [done|]. simpl. intros d fs' Hd got' f'' [= <- <-].
      rewrite Hl in Hd. injection Hd as <-.
      split; [done|by apply header_read_length]. }
    exact (post_run _ _ _ _ _ Hread Hp got f' eq_refl).
  - intros r w' (res & -> & [H|(e & H & ->)])%convert_outcome; [|done].
    apply body_run in H as [_ H]. destruct res as [[[] out] msg]; [done|].
    destruct H as (d & _ & _ & _ & [[_ ->]|[_ ->]]); done.
Qed.

(** C10. The result triple: success holds exactly when the output path is
    not empty; a failure has the empty output path and a message that is
    not empty; the message of a success names the format found in the
    header and the number of payload bytes. *)
Theorem result_triple_invariant p od w success out msg w' :
  convert_ctex_to_image p od w = (inr (success, out, msg), w') →
  (success = true ↔ out ≠ "") ∧
  (success = false → out = "" ∧ msg ≠ "") ∧
  (success = true →
   ∃ data ft,
     file_at w p = Some data ∧
     Py.unpack_le_u32 (firstn 4 (skipn 36 data)) = inr ft ∧
     msg = "Format: " +:+ format_name ft +:+ ", Size: "
           +:+ Py.fmt_nat (length (skipn 56 data)) +:+ " bytes").
Proof.
  intros Hrun. destruct success.
  - apply convert_success in Hrun as [_ (d & Hd & ft & t1 & kout & H)].
    destruct H as (_ & Hft & -> & -> & _).
    split; [|split; [done|eauto]].
    split; [intros _; apply str_nonempty|done].
  - apply convert_outcome in Hrun as (res & [= <-] & [H|(e & H & [= -> ->])]).
    + apply body_run in H as [_ (d & _ & _ & -> & [[_ ->]|[_ ->]])];
        (split; [split; done|split; [done|]]); done.
    + split; [split; done|split; [done|]]. done.
Qed.

Lemma header_bytes (data : bytes) b0 b1 b2 b3 :
  firstn 4 (skipn 36 data) = [b0; b1; b2; b3] →
  data !! 36 = Some b0 ∧ data !! 37 = Some b1 ∧
  data !! 38 = Some b2 ∧ data !! 39 = Some b3.
Proof.
  intros H.
  assert (∀ i, i < 4 → data !! (36 + i) = [b0; b1; b2; b3] !! i) as Hi.
  { intros i Hlt. by rewrite <- H, lookup_take_lt, lookup_drop. }
  repeat split; [apply (Hi 0)|apply (Hi 1)|apply (Hi 2)|apply (Hi 3)]; lia.
Qed.

(** C3. On a successful conversion the format tag is the unsigned 32-bit
    little-endian number held in the bytes at offsets 36 to 39 of the input,
    and the name of the output file is the stem of the input name followed
    by the extension of the tag; the extension is [.unknown], [.png],
    [.webp], [.basis] for the tags 0 to 3 and [.format] followed by the
    decimal tag for every other tag (tag 7 gives [.format7]); two different
    tags never have the same extension. *)
Theorem format_tag_extension p od w data out msg w' :
  file_at w p = Some data →
  convert_ctex_to_image p od w = (inr (true, out, msg), w') →
  (∃ b0 b1 b2 b3 ft,
     data !! 36 = Some b0 ∧ data !! 37 = Some b1 ∧
     data !! 38 = Some b2 ∧ data !! 39 = Some b3 ∧
     ft = (Byte.to_N b0 + 256 * Byte.to_N b1 + 65536 * Byte.to_N b2
           + 16777216 * Byte.to_N b3)%N ∧
     (ft < 2 ^ 32)%N ∧
     out = PurePath.str (output_path p od (ext ft)) ∧
     PurePath.name (output_path p od (ext ft))
       = PurePath.stem (PurePath.parse p) +:+ ext ft) ∧
  (∀ t, ext t = match t with
                | 0%N => ".unknown"
                | 1%N => ".png"
                | 2%N => ".webp"
                | 3%N => ".basis"
                | _ => ".format" +:+ Py.fmt_N t
                end) ∧
  ext 7 = ".format7" ∧
  (∀ t1 t2, ext t1 = ext t2 → t1 = t2).
Proof.
  intros Hfile [_ (d & Hd & ft & t1 & kout & H)]%convert_success.
  unfold file_at in Hfile. rewrite Hfile in Hd. injection Hd as <-.
  destruct H as (_ & Hft & -> & _). split; [|split; [|split]].
  - destruct (firstn 4 (skipn 36 data))
      as [|b0 [|b1 [|b2 [|b3 [|b4 l]]]]] eqn:Hb; simpl in Hft; try done.
    injection Hft as <-.
    destruct (header_bytes data b0 b1 b2 b3 Hb) as (H0 & H1 & H2 & H3).
    exists b0, b1, b2, b3. eexists. repeat (split; [done|]).
    split; [|split; [done|apply output_path_name]].
    pose proof (Byte.to_N_bounded b0). pose proof (Byte.to_N_bounded b1).
    pose proof (Byte.to_N_bounded b2). pose proof (Byte.to_N_bounded b3).
    change (2 ^ 32)%N with 4294967296%N. lia.
  - intros t.
    destruct (ext_cases t) as [[-> ->]|[[-> ->]|[[-> ->]|[[-> ->]|(?&?&?&?&->)]]]];
      try done.
    destruct t as [|[[]|[]|]]; done.
  - done.
  - apply ext_inj.
Qed.

(** C4. [convert_ctex_to_image] always returns a result and never raises:
    an exception raised anywhere in the body (opening, seeking, reading,
    making directories, writing, closing) becomes the failure result that
    carries its text, and a result returned by the body is passed on.  A
    failure result is one of three: the file is too small, there is no
    payload, or the text of the exception that was caught. *)
Theorem never_raises p od w :
  ∃ res w',
    convert_ctex_to_image p od w = (inr res, w') ∧
    match convert_body p od w with
    | (inl e, w1) =>
        res = (false, "", "Error processing file: " +:+ Py.exn_str e) ∧ w' = w1
    | (inr r0, w1) => res = r0 ∧ w' = w1
    end ∧
    (res.1.1 = false →
     res.1.2 = "" ∧
     ((∃ n, res.2 = "File too small (" +:+ Py.fmt_nat n
                    +:+ " bytes), minimum 56 bytes required")
      ∨ res.2 = "No image data found after header"
      ∨ ∃ e, res.2 = "Error processing file: " +:+ Py.exn_str e)).
Proof.
  destruct (convert_ctex_to_image p od w) as [r w'] eqn:Hrun.
  pose proof Hrun as (res & -> & Hres)%convert_outcome.
  exists res, w'. split; [done|]. split.
  - revert Hrun. unfold convert_ctex_to_image, try_except.
    destruct (convert_body p od w) as [[e|r0] w1]; simpl; by intros [= <- <-].
  - intros Hfail. destruct Hres as [H|(e & _ & ->)]; [|eauto 6].
    apply body_run in H as [_ H]. destruct res as [[[] out] msg]; [done|].
    destruct H as (d & _ & _ & -> & [[_ ->]|[_ ->]]); eauto 6.
Qed.

(** C6. On success the output path is made of the directory [dir] and the
    name [stem + extension]: [dir] is [output_dir] when that is given and not
    empty, and the directory of the input otherwise; the stem is the input
    name without its last suffix.  The directory exists in the tree into
    which the output file is then written, and still does at the end. *)
Theorem output_location p od w out msg w' :
  convert_ctex_to_image p od w = (inr (true, out, msg), w') →
  ∃ data ft t1 kout,
    let dir := output_parent p od in
    let name := PurePath.stem (PurePath.parse p) +:+ ext ft in
    file_at w p = Some data ∧
    Py.unpack_le_u32 (firstn 4 (skipn 36 data)) = inr ft ∧
    (∀ d, od = Some d → d ≠ "" → dir = PurePath.parse d) ∧
    (od = None ∨ od = Some "" → dir = PurePath.parent (PurePath.parse p)) ∧
    out = PurePath.str (output_path p od (ext ft)) ∧
    PurePath.parent (output_path p od (ext ft)) = dir ∧
    PurePath.name (output_path p od (ext ft)) = name ∧
    out = PurePath.format dir
          +:+ match PurePath.parts dir with [] => "" | _ :: _ => "/" end
          +:+ name ∧
    dir_in t1 (cwd w) (PurePath.str dir) = true ∧
    resolve t1 (cwd w) out = inr kout ∧
    tree w' = put kout (File (skipn 56 data)) t1 ∧
    dir_at w' (PurePath.str dir) = true.
Proof.
  intros [Hc (d & Hd & ft & t1 & kout & H)]%convert_success.
  destruct H as (_ & Hft & -> & _ & Hk & Hdir & Hr & Hnd & Ht).
  rewrite output_path_parent in Hdir.
  exists d, ft, t1, kout. cbv zeta. repeat split; try done.
  - intros x -> Hx. unfold output_parent. by destruct x.
  - by intros [->| ->].
  - apply output_path_parent.
  - apply output_path_name.
  - apply output_path_str.
  - unfold dir_at. rewrite Ht, Hc.
    by apply (dir_in_kept t1), Hdir; apply dirs_kept_put.
Qed.

(** C8. Running the converter again on the same input, when the first run
    succeeded and left the input file as it was, and the environment raises
    no fault: the second run returns the same result and leaves the whole
    file system, the output file included, exactly as the first run left
    it. *)
Theorem rerun_same_output p od w out msg w1 :
  convert_ctex_to_image p od w = (inr (true, out, msg), w1) →
  file_at w1 p = file_at w p →
  faults w1 = [] →
  convert_ctex_to_image p od w1 = (inr (true, out, msg), w1).
Proof.
  intros [Hc (d & Hd & ft & t1 & kout & H)]%convert_success Hsame Hq.
  destruct H as (Hlen & Hft & -> & -> & Hk & Hdir & Hr & Hnd & Ht).
  destruct w1 as [tf c fs]. simpl in *. subst fs c.
  unfold file_at in Hsame. simpl in Hsame. rewrite Hd in Hsame.
  unfold file_in in Hsame.
  destruct (resolve tf (cwd w) p) as [e|k] eqn:Hrp; [done|].
  destruct (lookup tf k) as [[d'|es]|] eqn:Hlp; try done.
  injection Hsame as ->.
  pose proof (dirs_kept_put kout (File (skipn 56 d)) t1 Hnd) as Hk1.
  rewrite <- Ht in Hk1.
  assert (lookup tf kout = Some (File (skipn 56 d))) as Hlo.
  { rewrite Ht. apply lookup_put_eq. by eapply resolve_put_ok. }
  unfold convert_ctex_to_image, try_except.
  rewrite (convert_body_quiet p od tf (cwd w) k d ft kout Hrp Hlp Hlen Hft).
  - by rewrite Ht, put_put.
  - by apply (dir_in_kept t1).
  - by apply (resolve_kept t1).
  - unfold is_dir_at. by rewrite Hlo.
Qed.

End Claims.

(** ** Discovery *)
Section Discovery.
Import OS.

Lemma node_nested_ind (P : node → Prop) :
  (∀ d, P (File d)) →
  (∀ es, Forall (λ e, P e.2) es → P (Dir es)) →
  ∀ n, P n.
Proof.
  intros HF HD. fix IH 1. intros [d|es]; [apply HF|apply HD].
  induction es as [|[c n] es IHes]; constructor; [apply IH|apply IHes].
Qed.

Lemma endswith_spec s p : Py.endswith s p = true ↔ ∃ pre, s = pre +:+ p.
Proof.
  split.
  - induction s as [|a s IH].
    + destruct p; [by exists ""|done].
    + change (Py.endswith (String a s) p)
        with (if String.eqb (String a s) p then true else Py.endswith s p).
      destruct (String.eqb_spec (String a s) p) as [<-|]; [by exists ""|].
      intros [pre ->]%IH. by exists (String a pre).
  - intros [pre ->]. induction pre as [|a pre IH].
    + change ("" +:+ p) with p.
      destruct p; simpl; by rewrite ?Ascii.eqb_refl, ?String.eqb_refl.
    + rewrite append_cons.
      change (Py.endswith (String a (pre +:+ p)) p)
        with (if String.eqb (String a (pre +:+ p)) p then true
              else Py.endswith (pre +:+ p) p).
      rewrite IH. by case_match.
Qed.

Lemma lower_append_inv s pre q :
  Py.lower s = pre +:+ q →
  ∃ s1 s2, s = s1 +:+ s2 ∧ Py.lower s1 = pre ∧ Py.lower s2 = q.
Proof.
  revert s. induction pre as [|a pre IH]; intros s H.
  - by exists "", s.
  - rewrite append_cons in H. destruct s as [|b s]; [done|].
    simpl in H. injection H as Hb H.
    destruct (IH s H) as (s1 & s2 & -> & <- & <-).
    exists (String b s1), s2. simpl. by rewrite Hb.
Qed.

Lemma lower_append a b : Py.lower (a +:+ b) = Py.lower a +:+ Py.lower b.
Proof.
  induction a as [|x a IH]; [done|]. rewrite append_cons. simpl.
  by rewrite IH, append_cons.
Qed.

Lemma lower_ascii_cases x :
  (Py.lower_ascii x = "." → x = ".")%char ∧
  (Py.lower_ascii x = "c" → x = "c" ∨ x = "C")%char ∧
  (Py.lower_ascii x = "t" → x = "t" ∨ x = "T")%char ∧
  (Py.lower_ascii x = "e" → x = "e" ∨ x = "E")%char ∧
  (Py.lower_ascii x = "x" → x = "x" ∨ x = "X")%char.
Proof.
  destruct x as [[] [] [] [] [] [] [] []]; vm_compute;
    repeat split; intros H; first [discriminate H | by left | by right].
Qed.

Lemma ctex_name_spec name :
  Py.endswith (Py.lower name) ".ctex" = true ↔ ctex_name name.
Proof.
  rewrite endswith_spec. split.
  - intros [pre H]. apply lower_append_inv in H as (s1 & s2 & -> & _ & H).
    destruct s2 as [|c0 [|c1 [|c2 [|c3 [|c4 [|c5 s2]]]]]]; try done.
    simpl in H. injection H as H0 H1 H2 H3 H4.
    apply lower_ascii_cases in H0 as ->. apply lower_ascii_cases in H1.
    apply lower_ascii_cases in H2. apply lower_ascii_cases in H3.
    apply lower_ascii_cases in H4. by exists s1, c1, c2, c3, c4.
  - intros (pre & c1 & c2 & c3 & c4 & -> & H1 & H2 & H3 & H4).
    exists (Py.lower pre). rewrite lower_append. f_equal.
    by destruct H1 as [->| ->], H2 as [->| ->], H3 as [->| ->], H4 as [->| ->].
Qed.

Lemma collect_files_loop root files acc :
  fold_left
    (fun ctex_files file =>
       if Py.endswith (Py.lower file) ".ctex"
       then ctex_files ++ [path_join root file]
       else ctex_files)
    files acc
  = acc ++ flat_map (fun file =>
                       if Py.endswith (Py.lower file) ".ctex"
                       then [path_join root file] else []) files.
Proof.
  revert acc. induction files as [|f files IH]; intros acc; simpl.
  - by rewrite app_nil_r.
  - rewrite IH. destruct (Py.endswith (Py.lower f) ".ctex"); [|done].
    by rewrite <- app_assoc.
Qed.

Lemma collect_flat_map triples :
  collect triples =
  flat_map (fun '(root, dirs, files) =>
              flat_map (fun file =>
                          if Py.endswith (Py.lower file) ".ctex"
                          then [path_join root file] else []) files)
           triples.
Proof.
  unfold collect.
  assert (∀ acc, fold_left
    (fun ctex_files '(root, dirs, files) =>
       fold_left
         (fun ctex_files file =>
            if Py.endswith (Py.lower file) ".ctex"
            then ctex_files ++ [path_join root file]
            else ctex_files)
         files ctex_files) triples acc
    = acc ++ flat_map (fun '(root, dirs, files) =>
              flat_map (fun file =>
                          if Py.endswith (Py.lower file) ".ctex"
                          then [path_join root file] else []) files)
           triples) as H.
  { induction triples as [|[[root dirs] files] triples IH]; intros acc; simpl.
    - by rewrite app_nil_r.
    - by rewrite IH, collect_files_loop, <- app_assoc. }
  by rewrite H.
Qed.

(** The paths collected from the triples of a walk. *)
Lemma in_collect triples path :
  In path (collect triples) ↔
  ∃ root dirs files file,
    In (root, dirs, files) triples ∧ In file files ∧
    ctex_name file ∧ path = path_join root file.
Proof.
  rewrite collect_flat_map, in_flat_map. split.
  - intros ([[root dirs] files] & Hin & H). apply in_flat_map in H as (file & Hf & H).
    destruct (Py.endswith (Py.lower file) ".ctex") eqn:Hc; [|done].
    destruct H as [<-|[]]. exists root, dirs, files, file.
    by rewrite <- ctex_name_spec.
  - intros (root & dirs & files & file & Hin & Hf & Hc & ->).
    exists (root, dirs, files). split; [done|]. apply in_flat_map.
    exists file. split; [done|]. apply ctex_name_spec in Hc. rewrite Hc. by left.
Qed.

Lemma in_walk_files es file :
  In file (flat_map (fun e : string * node =>
                       match e.2 with File _ => [e.1] | Dir _ => [] end) es)
  ↔ ∃ d, In (file, File d) es.
Proof.
  rewrite in_flat_map. split.
  - intros ([c [d|es']] & Hin & H); simpl in H; [|done].
    destruct H as [<-|[]]. eauto.
  - intros [d Hin]. exists (file, File d). split; [done|]. by left.
Qed.

(** The triples of a walk list exactly the files below the node. *)
Lemma walk_node_spec n :
  ∀ top root file,
    (∃ dirs files, In (root, dirs, files) (walk_node top n) ∧ In file files)
    ↔ ∃ rel, file_under n rel file ∧ root = fold_left path_join rel top.
Proof.
  induction n as [d|es IH] using node_nested_ind; intros top root file.
  - split; [by intros (? & ? & [] & _)|]. intros (rel & H & _). inversion H.
  - rewrite List.Forall_forall in IH. simpl. split.
    + intros (dirs & files & [Hhd|Htl] & Hf).
      * injection Hhd as <- <- <-. apply in_walk_files in Hf as [d Hd].
        exists []. split; [by econstructor|done].
      * apply in_flat_map in Htl as ([c child] & Hin & Hw). simpl in Hw.
        destruct (proj1 (IH (c, child) Hin (path_join top c) root file))
          as (rel & Hu & ->); [eauto|].
        exists (c :: rel). split; [by econstructor|done].
    + intros (rel & Hu & ->). inversion Hu as [es' name d Hin|es' c child rel' name Hin Hu']; subst.
      * do 2 eexists. split; [by left|]. apply in_walk_files. eauto.
      * destruct (proj2 (IH (c, child) Hin (path_join top c)
                           (fold_left path_join rel' (path_join top c)) file))
          as (dirs & files & Hw & Hf); [eauto|].
        exists dirs, files. split; [|done]. right. apply in_flat_map.
        by exists (c, child).
Qed.

(** C7. [find_ctex_files] returns, without failing and without changing
    anything, exactly the joined paths of the regular files found at any
    depth below the directory whose name ends with [.ctex] in any mix of
    upper and lower case; when the argument names no directory the list is
    empty. *)
Theorem find_ctex_files_exact directory w :
  ∃ l,
    find_ctex_files directory w = (inr l, w) ∧
    match resolve (tree w) (cwd w) directory with
    | inr k =>
        match lookup (tree w) k with
        | Some n =>
            ∀ path, In path l ↔
              ∃ rel name,
                file_under n rel name ∧ ctex_name name ∧
                path = path_join (fold_left path_join rel directory) name
        | None => l = []
        end
    | inl _ => l = []
    end.
Proof.
  unfold find_ctex_files, bind, os_walk, ret.
  destruct (resolve (tree w) (cwd w) directory) as [e|k]; [by eexists|].
  destruct (lookup (tree w) k) as [n|]; [|by eexists].
  eexists. split; [done|]. intros path. rewrite in_collect. split.
  - intros (root & dirs & files & file & Hin & Hf & Hc & ->).
    destruct (proj1 (walk_node_spec n directory root file)) as (rel & Hu & ->);
      [eauto|]. eauto.
  - intros (rel & name & Hu & Hc & ->).
    destruct (proj2 (walk_node_spec n directory
                       (fold_left path_join rel directory) name))
      as (dirs & files & Hin & Hf); [eauto|].
    exists (fold_left path_join rel directory), dirs, files, name. eauto.
Qed.

End Discovery.

(** * The claims on the sample file system *)
Section Sample.
Import OS.

Lemma payload_copied_verbatim_witness :
  file_at sample "icon.ctex" = Some icon ∧
  56 ≤ length icon ∧
  convert_ctex_to_image "icon.ctex" None sample
    = (inr (true, "icon.png", "Format: PNG, Size: 4 bytes"), sample_converted) ∧
  file_at sample_converted "icon.png" = Some (skipn 56 icon) ∧
  length (skipn 56 icon) = length icon - 56.
Proof.
  assert (file_at sample "icon.ctex" = Some icon) as H1 by reflexivity.
  assert (56 ≤ length icon) as H2 by (simpl; lia).
  assert (convert_ctex_to_image "icon.ctex" None sample
          = (inr (true, "icon.png", "Format: PNG, Size: 4 bytes"),
             sample_converted)) as H3 by (vm_compute; reflexivity).
  repeat (split; [assumption|]).
  exact (payload_copied_verbatim _ _ _ _ _ _ _ H1 H2 H3).
Defined.

Lemma too_small_rejected_witness :
  file_at sample "tiny.ctex" = Some tiny ∧
  length tiny < 56 ∧
  tree (convert_ctex_to_image "tiny.ctex" None sample).2 = tree sample ∧
  (faults sample = [] →
   (convert_ctex_to_image "tiny.ctex" None sample).2 = sample ∧
   (convert_ctex_to_image "tiny.ctex" None sample).1
     = inr (false, "", "File too small (" +:+ Py.fmt_nat (length tiny)
                       +:+ " bytes), minimum 56 bytes required")).
Proof.
  assert (file_at sample "tiny.ctex" = Some tiny) as H1 by reflexivity.
  assert (length tiny < 56) as H2 by (simpl; lia).
  repeat (split; [assumption|]).
  exact (too_small_rejected "tiny.ctex" None sample tiny _ _ H1 H2
           (surjective_pairing _)).
Defined.

Lemma header_only_rejected_witness :
  file_at sample "bare.ctex" = Some (header Byte.x02) ∧
  length (header Byte.x02) = 56 ∧
  tree (convert_ctex_to_image "bare.ctex" None sample).2 = tree sample ∧
  (faults sample = [] →
   (convert_ctex_to_image "bare.ctex" None sample).2 = sample ∧
   (convert_ctex_to_image "bare.ctex" None sample).1
     = inr (false, "", "No image data found after header")).
Proof.
  assert (file_at sample "bare.ctex" = Some (header Byte.x02)) as H1
    by reflexivity.
  assert (length (header Byte.x02) = 56) as H2 by reflexivity.
  repeat (split; [assumption|]).
  exact (header_only_rejected "bare.ctex" None sample _ _ _ H1 H2
           (surjective_pairing _)).
Defined.

Lemma format_read_never_short_witness :
  file_at sample "icon.ctex" = Some icon ∧
  56 ≤ length icon ∧
  (convert_ctex_to_image "icon.ctex" None sample).1
    ≠ inr (false, "", "Failed to read format information").
Proof.
  assert (file_at sample "icon.ctex" = Some icon) as H1 by reflexivity.
  assert (56 ≤ length icon) as H2 by (simpl; lia).
  repeat (split; [assumption|]).
  exact (proj2 (format_read_never_short "icon.ctex" None sample icon H1 H2)
           _ _ (surjective_pairing _)).
Defined.

Lemma result_triple_invariant_witness :
  convert_ctex_to_image "icon.ctex" None sample
    = (inr (true, "icon.png", "Format: PNG, Size: 4 bytes"), sample_converted) ∧
  (true = true ↔ "icon.png" ≠ "") ∧
  (true = false → "icon.png" = "" ∧ "Format: PNG, Size: 4 bytes" ≠ "") ∧
  (true = true →
   ∃ data ft,
     file_at sample "icon.ctex" = Some data ∧
     Py.unpack_le_u32 (firstn 4 (skipn 36 data)) = inr ft ∧
     "Format: PNG, Size: 4 bytes"
       = "Format: " +:+ format_name ft +:+ ", Size: "
         +:+ Py.fmt_nat (length (skipn 56 data)) +:+ " bytes").
Proof.
  assert (convert_ctex_to_image "icon.ctex" None sample
          = (inr (true, "icon.png", "Format: PNG, Size: 4 bytes"),
             sample_converted)) as H1 by (vm_compute; reflexivity).
  split; [assumption|].
  exact (result_triple_invariant _ _ _ _ _ _ _ H1).
Defined.

Lemma format_tag_extension_witness :
  file_at sample "sub/Tex.CTEX" = Some (header Byte.x07 ++ [Byte.x2a]) ∧
  convert_ctex_to_image "sub/Tex.CTEX" None sample
    = (inr (true, "sub/Tex.format7", "Format: UNKNOWN(7), Size: 1 bytes"),
       (convert_ctex_to_image "sub/Tex.CTEX" None sample).2) ∧
  ext 7 = ".format7" ∧
  (∀ t1 t2, ext t1 = ext t2 → t1 = t2).
Proof.
  assert (file_at sample "sub/Tex.CTEX" = Some (header Byte.x07 ++ [Byte.x2a]))
    as H1 by reflexivity.
  assert (convert_ctex_to_image "sub/Tex.CTEX" None sample
    = (inr (true, "sub/Tex.format7", "Format: UNKNOWN(7), Size: 1 bytes"),
       (convert_ctex_to_image "sub/Tex.CTEX" None sample).2)) as H2
    by (vm_compute; reflexivity).
  repeat (split; [assumption|]).
  exact (proj2 (proj2 (format_tag_extension _ _ _ _ _ _ _ H1 H2))).
Defined.

Lemma output_location_witness :
  convert_ctex_to_image "sub/Tex.CTEX" (Some "out/textures") sample
    = (inr (true, "out/textures/Tex.format7",
            "Format: UNKNOWN(7), Size: 1 bytes"),
       (convert_ctex_to_image "sub/Tex.CTEX" (Some "out/textures") sample).2) ∧
  dir_at (convert_ctex_to_image "sub/Tex.CTEX" (Some "out/textures") sample).2
         "out/textures" = true.
Proof.
  assert (convert_ctex_to_image "sub/Tex.CTEX" (Some "out/textures") sample
    = (inr (true, "out/textures/Tex.format7",
            "Format: UNKNOWN(7), Size: 1 bytes"),
       (convert_ctex_to_image "sub/Tex.CTEX" (Some "out/textures") sample).2))
    as H1 by (vm_compute; reflexivity).
  split; [assumption|].
  destruct (output_location _ _ _ _ _ _ H1) as (d & ft & t1 & kout & H).
  exact (proj2 (proj2 (proj2 (proj2 (proj2 (proj2 (proj2 (proj2
           (proj2 (proj2 (proj2 H))))))))))).
Defined.

Lemma rerun_same_output_witness :
  convert_ctex_to_image "icon.ctex" None sample
    = (inr (true, "icon.png", "Format: PNG, Size: 4 bytes"), sample_converted) ∧
  file_at sample_converted "icon.ctex" = file_at sample "icon.ctex" ∧
  faults sample_converted = [] ∧
  convert_ctex_to_image "icon.ctex" None sample_converted
    = (inr (true, "icon.png", "Format: PNG, Size: 4 bytes"), sample_converted).
Proof.
  assert (convert_ctex_to_image "icon.ctex" None sample
          = (inr (true, "icon.png", "Format: PNG, Size: 4 bytes"),
             sample_converted)) as H1 by (vm_compute; reflexivity).
  assert (file_at sample_converted "icon.ctex" = file_at sample "icon.ctex")
    as H2 by (vm_compute; reflexivity).
  assert (faults sample_converted = []) as H3 by (vm_compute; reflexivity).
  repeat (split; [assumption|]).
  exact (rerun_same_output _ _ _ _ _ _ H1 H2 H3).
Defined.

(** The 60-byte container with tag 1 and the PNG magic becomes
    [icon.png] holding exactly those four bytes. *)
Example png_scenario :
  convert_ctex_to_image "icon.ctex" None sample
    = (inr (true, "icon.png", "Format: PNG, Size: 4 bytes"), sample_converted) ∧
  file_at sample_converted "icon.png"
    = Some [Byte.x89; Byte.x50; Byte.x4e; Byte.x47] ∧
  file_at sample_converted "icon.ctex" = Some icon.
Proof. by vm_compute. Qed.

(** A path that names nothing: the failure of [open] is reported, nothing
    changes. *)
Example missing_input :
  convert_ctex_to_image "nope.ctex" None sample
    = (inr (false, "",
            "Error processing file: [Errno 2] No such file or directory: 'nope.ctex'"),
       sample).
Proof. by vm_compute. Qed.

(** A regular file where the output directory should be. *)
Example output_dir_is_a_file :
  (convert_ctex_to_image "icon.ctex" (Some "notes.txt") sample).1
    = inr (false, "",
           "Error processing file: [Errno 17] File exists: 'notes.txt'").
Proof. by vm_compute. Qed.

(** The environment fails the eleventh primitive call, the write: the
    failure is reported, and the output file is left created and empty. *)
Example write_fault :
  let w := World (tree sample) (cwd sample)
             (repeat None 10
              ++ [Some (Py.OSError "[Errno 28] No space left on device")]) in
  (convert_ctex_to_image "icon.ctex" None w).1
    = inr (false, "",
           "Error processing file: [Errno 28] No space left on device") ∧
  file_at (convert_ctex_to_image "icon.ctex" None w).2 "icon.png" = Some [].
Proof. by vm_compute. Qed.

(** An input whose own name is [stem + extension] is overwritten by its
    payload, and a second run then finds a file of four bytes. *)
Example input_overwritten :
  let w := World (Dir [("photo.png", File icon)]) [] [] in
  let w1 := (convert_ctex_to_image "photo.png" None w).2 in
  (convert_ctex_to_image "photo.png" None w).1
    = inr (true, "photo.png", "Format: PNG, Size: 4 bytes") ∧
  (convert_ctex_to_image "photo.png" None w1).1
    = inr (false, "", "File too small (4 bytes), minimum 56 bytes required").
Proof. by vm_compute. Qed.

(** Discovery in the sample: every letter case, every depth, in listing
    order; and a directory that does not exist. *)
Example discovery_sample :
  find_ctex_files "." sample
    = (inr ["./icon.ctex"; "./tiny.ctex"; "./bare.ctex"; "./sub/Tex.CTEX";
            "./sub/deep/a.Ctex"], sample) ∧
  find_ctex_files "/proj/sub" sample
    = (inr ["/proj/sub/Tex.CTEX"; "/proj/sub/deep/a.Ctex"], sample) ∧
  find_ctex_files "elsewhere" sample = (inr [], sample).
Proof. by vm_compute. Qed.

End Sample.

(** * Further properties *)

(** ** Names of inputs and outputs *)
Section Names.
Import OS.

Lemma append_snoc_inj a b x y :
  a +:+ String x "" = b +:+ String y "" → a = b ∧ x = y.
Proof.
  revert b. induction a as [|c a IH]; intros [|c' b]; rewrite ?append_cons.
  - by intros [= ->].
  - intros [= _ H]. by destruct b.
  - intros [= _ H]. by destruct a.
  - intros [= -> H]. by destruct (IH b H) as [-> ->].
Qed.

Lemma ctex_name_last name :
  ctex_name name → ∃ s c, name = s +:+ String c "" ∧ (c = "x" ∨ c = "X")%char.
Proof.
  intros (pre & c1 & c2 & c3 & c4 & -> & _ & _ & _ & H4).
  exists (pre +:+ String "." (String c1 (String c2 (String c3 "")))), c4.
  split; [|done]. by rewrite append_assoc.
Qed.

Lemma uint_last d :
  d ≠ Decimal.Nil →
  ∃ s c, NilEmpty.string_of_uint d = s +:+ String c ""
         ∧ c ≠ "x"%char ∧ c ≠ "X"%char.
Proof.
  induction d as [|d IH|d IH|d IH|d IH|d IH|d IH|d IH|d IH|d IH|d IH];
    intros Hne; [done|..]; simpl;
    (assert (d = Decimal.Nil ∨ d ≠ Decimal.Nil) as [->|Hd]
       by (clear; destruct d; auto);
     [eexists "", _; by repeat split
     |destruct (IH Hd) as (s & c & -> & Hx & HX);
      eexists (String _ s), c; by repeat split]).
Qed.

Lemma N_to_uint_nonnil t : N.to_uint t ≠ Decimal.Nil.
Proof.
  intros H. pose proof (DecimalN.Unsigned.of_to t) as Ht.
  rewrite H in Ht. simpl in Ht. by subst t.
Qed.

Lemma ext_last t :
  ∃ s c, ext t = s +:+ String c "" ∧ c ≠ "x"%char ∧ c ≠ "X"%char.
Proof.
  destruct (ext_cases t) as [[-> ->]|[[-> ->]|[[-> ->]|[[-> ->]|(?&?&?&?&->)]]]].
  - by exists ".unknow", "n"%char.
  - by exists ".pn", "g"%char.
  - by exists ".web", "p"%char.
  - by exists ".basi", "s"%char.
  - destruct (uint_last _ (N_to_uint_nonnil t)) as (s & c & Hs & Hx & HX).
    exists (".format" +:+ s), c. unfold Py.fmt_N. rewrite Hs.
    by rewrite append_assoc.
Qed.

Lemma output_seg_not_ctex stem t : ¬ ctex_name (stem +:+ ext t).
Proof.
  intros (s & c & Hs & Hc)%ctex_name_last.
  destruct (ext_last t) as (s' & c' & He & Hx & HX). rewrite He in Hs.
  rewrite <- append_assoc in Hs. apply append_snoc_inj in Hs as [_ ->].
  by destruct Hc.
Qed.

(** X2. The name of an output file never ends with [.ctex], in any letter
    case: [find_ctex_files] never takes an output of the converter for an
    input. *)
Theorem output_never_ctex p od ft :
  let name := PurePath.name (output_path p od (ext ft)) in
  ¬ ctex_name name ∧ Py.endswith (Py.lower name) ".ctex" = false.
Proof.
  intros name. assert (¬ ctex_name name) as H.
  { unfold name. rewrite output_path_name. apply output_seg_not_ctex. }
  split; [done|]. destruct (Py.endswith _ _) eqn:He; [|done].
  by apply ctex_name_spec in He.
Qed.

End Names.

(** ** Where a path string leads *)
Section Keys.
Import OS.

(** The last component decides the shape of the position reached. *)
Lemma walk_components_snoc p t cur comps c k :
  walk_components p t cur (comps ++ [c]) = inr k →
  (¬ clean_name c ∧ is_dir_at t k = true) ∨
  (clean_name c ∧ ∃ k', k = k' ++ [c] ∧ is_dir_at t k' = true).
Proof.
  revert cur. induction comps as [|x comps IH]; intros cur; simpl.
  - destruct (lookup t cur) as [[d|es]|] eqn:Hl; try done.
    assert (is_dir_at t cur = true) as Hd by (unfold is_dir_at; by rewrite Hl).
    destruct (String.eqb_spec c "") as [->|H1]; simpl.
    { intros [= <-]. left. split; [by intros [? _]|done]. }
    destruct (String.eqb_spec c ".") as [->|H2]; simpl.
    { intros [= <-]. left. split; [by intros (_ & ? & _)|done]. }
    destruct (String.eqb_spec c "..") as [->|H3].
    { intros [= <-]. left. split; [by intros (_ & _ & ?)|].
      by apply is_dir_at_removelast. }
    intros [= <-]. right. split; [done|eauto].
  - destruct (lookup t cur) as [[d|es]|]; try done. repeat case_match; apply IH.
Qed.

Lemma split_snoc s : ∃ comps c, Py.split "/" s = comps ++ [c].
Proof.
  destruct (Py.split "/" s) as [|x l] eqn:H; [by apply split_nonempty in H|].
  destruct (exists_last (l := x :: l)) as (comps & c & ->); [done|eauto].
Qed.

Lemma substring_0_all n s : String.length s ≤ n → String.substring 0 n s = s.
Proof.
  revert n. induction s as [|a s IH]; intros [|n] H; simpl in *; try done; try lia.
  f_equal. apply IH. lia.
Qed.

Lemma startswith_cons x s : Py.startswith (String x s) "/" = Ascii.eqb x "/".
Proof.
  change (Py.startswith (String x s) "/")
    with (match ascii_dec "/" x with
          | left _ => String.prefix "" s
          | right _ => false
          end).
  destruct (ascii_dec "/" x) as [<-|Hne]; [by destruct s|].
  symmetry. apply Ascii.eqb_neq. congruence.
Qed.

(** The root that [splitroot] takes off is made of slashes. *)
Lemma splitroot_rel p :
  let '(rt, rel) := PurePath.splitroot p in
  p = rt +:+ rel ∧ (rt = "" ∨ rt = "/" ∨ rt = "//") ∧
  (∃ n, Py.split "/" p = repeat "" n ++ Py.split "/" rel) ∧
  Py.startswith p "/" = negb (String.eqb rt "").
Proof.
  assert (∀ a, a ≠ "/"%char → ∀ s, PurePath.splitroot (String a s) = ("", String a s))
    as Hother.
  { intros a Ha s. unfold PurePath.splitroot.
    destruct a as [[] [] [] [] [] [] [] []]; done. }
  destruct p as [|a p]; [repeat split; auto; by exists 0|].
  destruct (decide (a = "/"%char)) as [->|Ha].
  2:{ rewrite (Hother a Ha), startswith_cons. repeat split; auto; [by exists 0|].
      simpl. by apply Ascii.eqb_neq. }
  rewrite startswith_cons.
  destruct p as [|b p]; [repeat split; auto; by exists 1|].
  destruct (decide (b = "/"%char)) as [->|Hb].
  - destruct p as [|c p]; [repeat split; auto; by exists 2|].
    destruct (decide (c = "/"%char)) as [->|Hc].
    + unfold PurePath.splitroot.
      change (String.substring 1 _ _)
        with (String.substring 0 (S (S (S (String.length p)))) (String "/" (String "/" p))).
      rewrite substring_0_all by (simpl; lia).
      repeat split; auto. by exists 1.
    + assert (PurePath.splitroot (String "/" (String "/" (String c p)))
              = ("//", String c p)) as ->.
      { unfold PurePath.splitroot. destruct c as [[] [] [] [] [] [] [] []]; done. }
      repeat split; auto. by exists 2.
  - assert (PurePath.splitroot (String "/" (String b p)) = ("/", String b p)) as ->.
    { unfold PurePath.splitroot. destruct b as [[] [] [] [] [] [] [] []]; done. }
    repeat split; auto. by exists 1.
Qed.

Lemma parse_root_cases p :
  let rt := PurePath.root (PurePath.parse p) in rt = "" ∨ rt = "/" ∨ rt = "//".
Proof.
  unfold PurePath.parse. pose proof (splitroot_rel p) as H.
  destruct (PurePath.splitroot p) as [rt rel]. simpl. by destruct H as (_ & H & _ & _).
Qed.

Lemma filter_snoc {A} (f : A → bool) l x :
  f x = true → List.filter f (l ++ [x]) = List.filter f l ++ [x].
Proof. intros H. rewrite List.filter_app. simpl. by rewrite H. Qed.

(** The name of a parsed path is the last component of the string, when
    that is a name at all. *)
Lemma parse_name_last p comps c :
  Py.split "/" p = comps ++ [c] → c ≠ "" → c ≠ "." →
  PurePath.name (PurePath.parse p) = c.
Proof.
  intros Hs H1 H2. unfold PurePath.parse, PurePath.name.
  pose proof (splitroot_rel p) as H.
  destruct (PurePath.splitroot p) as [rt rel]. simpl.
  destruct H as (_ & _ & [n Hn] & _). rewrite Hs in Hn.
  destruct (split_snoc rel) as (comps' & c' & Hrel). rewrite Hrel in Hn.
  rewrite app_assoc in Hn. apply app_inj_tail in Hn as [_ <-].
  rewrite Hrel, filter_snoc, last_last; [done|].
  by rewrite (proj2 (String.eqb_neq c "") H1), (proj2 (String.eqb_neq c ".") H2).
Qed.

(** A path that leads to a regular file ends with the name of the file. *)
Lemma resolve_file_key t c p k d :
  resolve t c p = inr k → lookup t k = Some (File d) →
  ∃ k', k = k' ++ [PurePath.name (PurePath.parse p)].
Proof.
  unfold resolve. destruct p as [|a s] eqn:Hp; [done|]. rewrite <- Hp. intros Hw Hl.
  destruct (split_snoc p) as (comps & x & Hs). rewrite Hs in Hw.
  apply walk_components_snoc in Hw as [[_ Hd]|[(H1 & H2 & _) (k' & -> & _)]].
  - unfold is_dir_at in Hd. by rewrite Hl in Hd.
  - exists k'. by rewrite (parse_name_last p comps x Hs H1 H2).
Qed.

Lemma split_app_sep a b :
  Py.split "/" (a +:+ String "/" b) = Py.split "/" a ++ Py.split "/" b.
Proof.
  induction a as [|x a IH]; [done|]. rewrite append_cons. simpl.
  rewrite IH. destruct (Ascii.eqb x "/"); [done|].
  destruct (Py.split "/" a) as [|h l] eqn:Ha; [by apply split_nonempty in Ha|done].
Qed.

(** The text of the output path ends with the output name. *)
Lemma output_str_split p od ft :
  ∃ comps,
    Py.split "/" (PurePath.str (output_path p od (ext ft)))
    = comps ++ [PurePath.stem (PurePath.parse p) +:+ ext ft].
Proof.
  destruct (output_name_component p ft) as (Hs & Hne & Hnd).
  rewrite output_path_str.
  set (seg := PurePath.stem (PurePath.parse p) +:+ ext ft) in *.
  assert (∀ a, Py.split "/" (a +:+ "/" +:+ seg) = Py.split "/" a ++ [seg]) as Hsep.
  { intros a. change (a +:+ "/" +:+ seg) with (a +:+ String "/" seg).
    by rewrite split_app_sep, (split_component seg Hs). }
  destruct (PurePath.parts (output_parent p od)) as [|x l] eqn:Hparts.
  - unfold PurePath.format. rewrite Hparts. simpl. rewrite append_nil_r.
    change ("" +:+ seg) with seg.
    assert (let rt := PurePath.root (output_parent p od) in
            rt = "" ∨ rt = "/" ∨ rt = "//") as Hrt.
    { unfold output_parent. destruct (truthy od); [apply parse_root_cases|].
      unfold PurePath.parent. simpl. apply parse_root_cases. }
    simpl in Hrt. destruct Hrt as [->|[->| ->]].
    + exists []. by apply split_component.
    + exists [""]. apply (Hsep "").
    + exists [""; ""]. apply (Hsep "/").
  - eexists. apply Hsep.
Qed.

Lemma ext_length4 t : 4 ≤ String.length (ext t).
Proof.
  destruct (ext_cases t) as [[-> ->]|[[-> ->]|[[-> ->]|[[-> ->]|(?&?&?&?&->)]]]];
    simpl; lia.
Qed.

Lemma output_seg_clean p ft :
  clean_name (PurePath.stem (PurePath.parse p) +:+ ext ft).
Proof.
  pose proof (ext_length4 ft) as Hl.
  assert (4 ≤ String.length (PurePath.stem (PurePath.parse p) +:+ ext ft)) as Hs
    by (rewrite length_append; lia).
  repeat split; intros H; rewrite H in Hs; simpl in Hs; lia.
Qed.

(** The place the output path leads to ends with the output name. *)
Lemma resolve_output_key t c p od ft k :
  resolve t c (PurePath.str (output_path p od (ext ft))) = inr k →
  ∃ k', k = k' ++ [PurePath.stem (PurePath.parse p) +:+ ext ft]
        ∧ is_dir_at t k' = true.
Proof.
  unfold resolve.
  destruct (PurePath.str (output_path p od (ext ft))) as [|a s] eqn:Hstr; [done|].
  rewrite <- Hstr. destruct (output_str_split p od ft) as [comps ->].
  intros [[Hn _]|[_ H]]%walk_components_snoc; [|done].
  destruct Hn. apply output_seg_clean.
Qed.

End Keys.


(** ** What a walk collects when the tree grows *)
Section Listing.
Import OS.

Lemma same_inputs_refl n : same_inputs n n.
Proof. done. Qed.

Lemma inputs_kept_refl t : inputs_kept t t.
Proof. intros k es Hl. by exists es. Qed.

Lemma inputs_kept_trans t1 t2 t3 :
  inputs_kept t1 t2 → inputs_kept t2 t3 → inputs_kept t1 t3.
Proof.
  intros H12 H23 k es Hl. destruct (H12 k es Hl) as (es2 & Hl2 & Hs2).
  destruct (H23 k es2 Hl2) as (es3 & Hl3 & Hs3).
  exists es3. split; [done|]. intros top. by rewrite Hs2.
Qed.

Lemma inputs_kept_dirs t t' : inputs_kept t t' → dirs_kept t t'.
Proof.
  intros H k. unfold is_dir_at.
  destruct (lookup t k) as [[d|es]|] eqn:Hl; try done.
  destruct (H k es Hl) as (es' & -> & _). done.
Qed.

(** The paths collected from a directory: those of its own regular
    files, then those of every entry in turn. *)
Lemma collect_walk_dir top es :
  collect (walk_node top (Dir es))
  = flat_map (fun e : string * node =>
                match e.2 with
                | File _ => if Py.endswith (Py.lower e.1) ".ctex"
                            then [path_join top e.1] else []
                | Dir _ => []
                end) es
    ++ flat_map (fun e : string * node =>
                   collect (walk_node (path_join top e.1) e.2)) es.
Proof.
  rewrite collect_flat_map. simpl. f_equal.
  - induction es as [|[c [d|es1]] es IH]; simpl; [done| |done].
    rewrite IH. by destruct (Py.endswith (Py.lower c) ".ctex").
  - induction es as [|[c n] es IH]; simpl; [done|].
    by rewrite flat_map_app, IH, collect_flat_map.
Qed.

Lemma collect_walk_file top d : collect (walk_node top (File d)) = [].
Proof. done. Qed.

Lemma flat_map_entry_put {B} (g : string * node → list B) c n es :
  match entry_get c es with
  | Some child => g (c, n) = g (c, child)
  | None => g (c, n) = []
  end →
  flat_map g (entry_put c n es) = flat_map g es.
Proof.
  induction es as [|[c' n'] es IH]; simpl.
  - intros ->. done.
  - destruct (String.eqb_spec c c') as [->|Hne]; simpl.
    + by intros ->.
    + intros H. by rewrite IH.
Qed.

(** An entry replaced by a node of the same kind that collects the same. *)
Lemma same_inputs_put_child c child child' es :
  entry_get c es = Some child →
  same_inputs child child' →
  match child, child' with
  | File _, File _ | Dir _, Dir _ => True
  | _, _ => False
  end →
  same_inputs (Dir es) (Dir (entry_put c child' es)).
Proof.
  intros Hc Hs Hk top. rewrite !collect_walk_dir. f_equal; symmetry;
    apply flat_map_entry_put; rewrite Hc; simpl; [|by rewrite Hs].
  by destruct child, child'.
Qed.

(** A new entry that collects nothing. *)
Lemma same_inputs_new c n es :
  entry_get c es = None →
  match n with File _ => ¬ ctex_name c | Dir _ => True end →
  (∀ top, collect (walk_node top n) = []) →
  same_inputs (Dir es) (Dir (entry_put c n es)).
Proof.
  intros Hc Hn Hs top. rewrite !collect_walk_dir. f_equal; symmetry;
    apply flat_map_entry_put; rewrite Hc; simpl; [|by rewrite Hs].
  destruct n as [d|es1]; [|done].
  destruct (Py.endswith (Py.lower c) ".ctex") eqn:He; [|done].
  by apply ctex_name_spec in He.
Qed.

(** Storing a regular file whose name does not end with [.ctex], or making
    an empty directory where nothing was, changes nothing in what any walk
    collects. *)
Lemma inputs_kept_put k n t :
  is_dir_at t k = false →
  (∀ top, collect (walk_node top n) = []) →
  match n with
  | File _ => k ≠ [] ∧ ¬ ctex_name (List.last k "")
  | Dir _ => lookup t k = None
  end →
  inputs_kept t (put k n t).
Proof.
  intros Hnd Hs Hn. revert t Hnd Hn.
  induction k as [|c k IH]; intros t Hnd Hn k0 es0 Hl.
  { destruct t as [d|es]; [by destruct k0|done]. }
  destruct t as [d|es]; [by destruct k0|].
  unfold is_dir_at in Hnd. simpl in Hnd. simpl put.
  destruct (entry_get c es) as [child|] eqn:Hc.
  - assert (inputs_kept child (put k n child)
            ∧ same_inputs child (put k n child)
            ∧ match child, put k n child with
              | File _, File _ | Dir _, Dir _ => True
              | _, _ => False
              end) as (Hi & Hsame & Hkind).
    { destruct k as [|c1 k1].
      - simpl. destruct child as [d0|es1]; [|done].
        destruct n as [d|es1]; [|by simpl in Hn; rewrite Hc in Hn].
        split; [|done]. intros k' es' Hl'. by destruct k'.
      - assert (inputs_kept child (put (c1 :: k1) n child)) as Hi.
        { apply IH; [done|]. destruct n as [d|es1].
          - destruct Hn as [_ Hn]. split; [done|]. by simpl in Hn.
          - simpl in Hn. by rewrite Hc in Hn. }
        split; [done|]. destruct child as [d0|es1]; [done|].
        destruct (Hi [] es1 eq_refl) as (es' & Hl' & Hs').
        assert (put (c1 :: k1) n (Dir es1) = Dir es') as Hp
          by (by injection Hl').
        by rewrite Hp. }
    destruct k0 as [|c0 k0].
    + simpl in Hl. injection Hl as <-. eexists. split; [done|].
      by apply (same_inputs_put_child c child).
    + simpl in Hl. simpl. destruct (String.eqb_spec c0 c) as [->|Hne].
      * rewrite entry_get_put_eq. rewrite Hc in Hl. by apply Hi.
      * rewrite entry_get_put_ne by done. by exists es0.
  - destruct k as [|c1 k1]; [|by exists es0].
    destruct k0 as [|c0 k0].
    + simpl in Hl. injection Hl as <-. eexists. split; [done|].
      apply same_inputs_new; [done| |done].
      destruct n as [d|es1]; [|done]. by destruct Hn.
    + simpl in Hl. simpl. destruct (String.eqb_spec c0 c) as [->|Hne].
      * by rewrite Hc in Hl.
      * rewrite entry_get_put_ne by done. by exists es0.
Qed.

End Listing.

(** ** What a conversion leaves alone *)
Section FrameLemmas.
Import OS.

Lemma files_kept_refl t : files_kept t t.
Proof. by intros k d. Qed.

Lemma files_kept_trans t1 t2 t3 :
  files_kept t1 t2 → files_kept t2 t3 → files_kept t1 t3.
Proof. intros H12 H23 k d Hk. by apply H23, H12. Qed.

(** Storing a node where no directory is leaves every other regular file
    as it is. *)
Lemma lookup_put_file_ne k n t k' d :
  is_dir_at t k = false → k' ≠ k →
  lookup t k' = Some (File d) → lookup (put k n t) k' = Some (File d).
Proof.
  revert t k'. induction k as [|c k IH]; intros t k' Hnd Hne Hl.
  - destruct t as [d0|es]; [|done]. destruct k'; [done|]. by simpl in Hl.
  - destruct t as [d0|es]; simpl; [done|].
    destruct k' as [|c' k']; [done|]. simpl in Hl.
    unfold is_dir_at in Hnd. simpl in Hnd.
    destruct (entry_get c es) as [child|] eqn:Hc.
    + simpl. destruct (String.eqb_spec c' c) as [->|Hcc].
      * rewrite entry_get_put_eq. rewrite Hc in Hl.
        apply IH; [done|congruence|done].
      * by rewrite entry_get_put_ne.
    + destruct k as [|c1 k]; [|done]. simpl.
      destruct (String.eqb_spec c' c) as [->|Hcc].
      * by rewrite Hc in Hl.
      * by rewrite entry_get_put_ne.
Qed.

Lemma os_mkdir_keeps t k :
  lookup t k = None →
  dirs_kept t (put k (Dir []) t) ∧ files_kept t (put k (Dir []) t)
  ∧ inputs_kept t (put k (Dir []) t).
Proof.
  intros Hl. assert (is_dir_at t k = false) as Hnd
    by (unfold is_dir_at; by rewrite Hl).
  split; [by apply dirs_kept_put|]. split.
  - intros k' d Hk'. apply lookup_put_file_ne; [done| |done]. congruence.
  - by apply inputs_kept_put.
Qed.

Lemma post_mkdir_exist_ok_frame p t c fs Q :
  mkdir_frame t c Q → post (Path.mkdir_exist_ok p) (World t c fs) Q.
Proof.
  intros HQ. unfold Path.mkdir_exist_ok. apply post_try_except.
  apply post_os_mkdir.
  - intros e fs'.
    destruct e; try (apply post_raise, HQ; 
      [apply dirs_kept_refl|apply files_kept_refl|apply inputs_kept_refl]).
    apply post_bind. unfold post, isdir. simpl.
    destruct (dir_at _ _); simpl; (apply HQ; 
      [apply dirs_kept_refl|apply files_kept_refl|apply inputs_kept_refl]).
  - intros k fs' _ Hl. destruct (os_mkdir_keeps _ _ Hl) as (? & ? & ?). by apply HQ.
Qed.

Lemma post_mkdir_parents_frame rt rparts t c fs Q :
  mkdir_frame t c Q → post (Path.mkdir_parents rt rparts) (World t c fs) Q.
Proof.
  revert t fs Q. induction rparts as [|x up IH]; intros t fs Q HQ;
    rewrite mkdir_parents_unfold; cbv zeta; apply post_try_except;
    apply post_os_mkdir.
  - intros e fs'.
    destruct e; try (apply post_raise, HQ; 
      [apply dirs_kept_refl|apply files_kept_refl|apply inputs_kept_refl]).
    apply post_bind. unfold post, isdir. simpl.
    destruct (dir_at _ _); simpl; (apply HQ; 
      [apply dirs_kept_refl|apply files_kept_refl|apply inputs_kept_refl]).
  - intros k fs' _ Hl. destruct (os_mkdir_keeps _ _ Hl) as (? & ? & ?). by apply HQ.
  - intros e fs'.
    destruct e; try (apply post_raise, HQ; 
      [apply dirs_kept_refl|apply files_kept_refl|apply inputs_kept_refl]).
    + apply post_bind. apply IH. intros r t1 fs1 Hd1 Hf1 Hi1.
      destruct r as [e|u]; [by apply HQ|].
      apply post_mkdir_exist_ok_frame. intros r t2 fs2 Hd2 Hf2 Hi2.
      apply HQ; [by eapply dirs_kept_trans|by eapply files_kept_trans
                |by eapply inputs_kept_trans].
    + apply post_bind. unfold post, isdir. simpl.
      destruct (dir_at _ _); simpl; (apply HQ; 
      [apply dirs_kept_refl|apply files_kept_refl|apply inputs_kept_refl]).
  - intros k fs' _ Hl. destruct (os_mkdir_keeps _ _ Hl) as (? & ? & ?). by apply HQ.
Qed.

Lemma post_path_mkdir_frame p t c fs Q :
  mkdir_frame t c Q → post (Path.mkdir p) (World t c fs) Q.
Proof. intros HQ. by apply post_mkdir_parents_frame. Qed.

(** The frame after the output file has been stored. *)
Lemma frame_after_put p od t c t1 kout data ft x :
  dirs_kept t t1 → files_kept t t1 → inputs_kept t t1 →
  file_in t c p = Some data →
  Py.unpack_le_u32 (firstn 4 (skipn 36 data)) = inr ft →
  resolve t1 c (PurePath.str (output_path p od (ext ft))) = inr kout →
  is_dir_at t1 kout = false →
  ∀ r fs, body_frame p od t c r (World (put kout (File x) t1) c fs).
Proof.
  intros Hd Hf Hi Hfile Hft Hr Hnd r fs.
  pose proof (dirs_kept_put kout (File x) t1 Hnd) as Hd1.
  split; [done|]. split; [by eapply dirs_kept_trans|]. split.
  { apply (inputs_kept_trans _ t1); [done|]. simpl.
    destruct (resolve_output_key _ _ _ _ _ _ Hr) as (k' & -> & _).
    apply inputs_kept_put; [done|done|]. split; [by destruct k'|].
    rewrite last_last. apply output_seg_not_ctex. }
  intros k d Hk. simpl. destruct (decide (k = kout)) as [->|Hne].
  - right. exists data, ft. repeat split; try done. by apply (resolve_kept t1).
  - left. apply lookup_put_file_ne; [done|done|by apply Hf].
Qed.

Lemma convert_body_frame ctex_path output_dir t c fs :
  post (convert_body ctex_path output_dir) (World t c fs)
       (body_frame ctex_path output_dir t c).
Proof.
  assert (∀ r fs', body_frame ctex_path output_dir t c r (World t c fs')) as Hsame.
  { intros r fs'. split; [done|]. split; [apply dirs_kept_refl|].
    split; [apply inputs_kept_refl|]. by left. }
  unfold convert_body. apply post_with_open, post_open_rb; [done|].
  intros k d fs1 Hr Hl.
  assert (file_in t c ctex_path = Some d) as Hfile.
  { unfold file_in. by rewrite Hr, Hl. }
  assert (∀ r fs', post (close (FileObj k 0)) (World t c fs')
            (λ r3 w3, match r3 with
                      | inl e => body_frame ctex_path output_dir t c (inl e) w3
                      | inr _ => body_frame ctex_path output_dir t c r w3
                      end)) as Hclose.
  { intros r fs'. by apply post_close. }
  apply post_bind, post_seek_end; [done|]. simpl. intros d0 fs2 Hd0.
  assert (d0 = d) as -> by congruence. clear Hd0.
  apply post_bind, post_tell; [done|]. simpl. intros fs3.
  apply post_bind, post_seek_set; [done|]. simpl. intros _ fs4 _.
  rewrite Nat.add_0_r. destruct (Nat.ltb_spec (length d) 56) as [Hlt|Hge].
  { apply post_ret, Hclose. }
  apply post_bind, post_seek_set; [done|]. simpl. intros _ fs5 _.
  apply post_bind, post_read; [done|]. simpl. intros d0 fs6 Hd0.
  assert (d0 = d) as -> by congruence. clear Hd0.
  pose proof (header_read_length d Hge) as Hlen. rewrite Hlen. simpl.
  destruct (unpack_le_u32_length _ Hlen) as [ft Hft].
  apply post_bind. rewrite Hft. apply post_lift.
  apply post_bind, post_seek_set; [done|]. simpl. intros _ fs7 _.
  apply post_bind, post_read; [done|]. simpl. intros d0 fs8 Hd0.
  assert (d0 = d) as -> by congruence. clear Hd0.
  destruct (skipn 56 d) as [|b payload] eqn:Himg.
  { apply post_ret, Hclose. }
  apply post_bind, post_path_mkdir_frame. intros r t1 fs9 Hd1 Hf1 Hi1.
  assert (∀ r fs', body_frame ctex_path output_dir t c r (World t1 c fs')) as Hsame1.
  { intros r' fs'. split; [done|]. split; [done|]. split; [done|].
    intros k' d' Hk'. left. by apply Hf1. }
  destruct r as [e|[]]; [by apply post_close|].
  apply post_bind, post_with_open, post_open_wb; [intros; by apply post_close|].
  intros kout fs10 Hrout Hnd.
  pose proof (frame_after_put ctex_path output_dir t c t1 kout d ft) as Hput.
  specialize (λ x, Hput x Hd1 Hf1 Hi1 Hfile Hft Hrout Hnd).
  apply post_write; [intros; repeat (apply post_close; intros); apply Hput|].
  simpl. intros d0 fs11 Hd0. rewrite put_put.
  apply post_close; [intros; apply post_close; intros; apply Hput|]. intros fs12.
  apply post_ret, post_close; intros; apply Hput.
Qed.

End FrameLemmas.

Section FrameTheorems.
Import OS.

Lemma convert_frame p od w r w' :
  convert_ctex_to_image p od w = (r, w') →
  ∃ r0, body_frame p od (tree w) (cwd w) r0 w'.
Proof.
  intros (res & -> & [H|(e & H & ->)])%convert_outcome;
    destruct w as [t c fs]; eexists;
    apply (post_run _ _ _ _ _ H), convert_body_frame.
Qed.

(** X1. Whatever the outcome and whatever the environment does, a
    conversion keeps the working directory and every directory, and every
    path that named a regular file names the same content afterwards, unless
    it leads to the very place the output path leads to. *)
Theorem convert_changes_only_output p od w r w' :
  convert_ctex_to_image p od w = (r, w') →
  cwd w' = cwd w ∧
  (∀ q, dir_at w q = true → dir_at w' q = true) ∧
  (∀ q d, file_at w q = Some d →
     file_at w' q = Some d ∨
     ∃ data ft,
       file_at w p = Some data ∧
       Py.unpack_le_u32 (firstn 4 (skipn 36 data)) = inr ft ∧
       resolve (tree w') (cwd w') q
       = resolve (tree w') (cwd w')
           (PurePath.str (output_path p od (ext ft)))).
Proof.
  intros [r0 (Hc & Hd & Hi & Hf)]%convert_frame. split; [done|]. split.
  - intros q. unfold dir_at. rewrite Hc. by apply dir_in_kept.
  - intros q d. unfold file_at, file_in. rewrite Hc.
    destruct (resolve (tree w) (cwd w) q) as [e|k] eqn:Hr; [done|].
    rewrite (resolve_kept _ _ _ _ _ Hd Hr).
    destruct (lookup (tree w) k) as [[d0|es]|] eqn:Hl; try done.
    intros [= ->]. destruct (Hf k d Hl) as [->|(data & ft & H1 & H2 & H3)].
    + by left.
    + right. exists data, ft. by rewrite H3.
Qed.

(** Discovery from an existing directory returns the same list in a world
    that kept the inputs. *)
Lemma discovery_kept w w' directory :
  cwd w' = cwd w → inputs_kept (tree w) (tree w') →
  dir_at w directory = true →
  ∃ l, find_ctex_files directory w = (inr l, w) ∧
       find_ctex_files directory w' = (inr l, w').
Proof.
  intros Hc Hi. unfold dir_at, dir_in, is_dir_at.
  destruct (resolve (tree w) (cwd w) directory) as [e|k] eqn:Hr; [done|].
  destruct (lookup (tree w) k) as [[d|es]|] eqn:Hl; try done. intros _.
  destruct (Hi k es Hl) as (es' & Hl' & Hs).
  unfold find_ctex_files, bind, os_walk, ret. rewrite Hc, Hr, Hl.
  rewrite (resolve_kept _ _ _ _ _ (inputs_kept_dirs _ _ Hi) Hr), Hl'.
  eexists. split; [done|]. by rewrite Hs.
Qed.

(** X10. Whatever its outcome and whatever the environment does, a
    conversion does not change what a search of an existing directory
    finds: the same paths in the same order (a directory lists a new entry
    after the entries it had).  The output file is never taken for an
    input, and no input disappears. *)
Theorem conversion_keeps_discovery p od w r w' directory :
  convert_ctex_to_image p od w = (r, w') →
  dir_at w directory = true →
  ∃ l, find_ctex_files directory w = (inr l, w) ∧
       find_ctex_files directory w' = (inr l, w').
Proof.
  intros [r0 (Hc & _ & Hi & _)]%convert_frame Hdir.
  by apply discovery_kept.
Qed.

End FrameTheorems.

(** ** Inputs are safe *)
Section Inputs.
Import OS.

(** A regular file whose name ends with [.ctex] is out of reach of the
    one write a conversion makes. *)
Lemma ctex_file_kept p od w r w' q d :
  convert_ctex_to_image p od w = (r, w') →
  file_at w q = Some d →
  ctex_name (PurePath.name (PurePath.parse q)) →
  file_at w' q = Some d.
Proof.
  intros [r0 (Hc & Hd & Hi & Hf)]%convert_frame Hq Hn.
  unfold file_at, file_in in *. rewrite Hc.
  destruct (resolve (tree w) (cwd w) q) as [e|k] eqn:Hr; [done|].
  rewrite (resolve_kept _ _ _ _ _ Hd Hr).
  destruct (lookup (tree w) k) as [[d0|es]|] eqn:Hl; try done.
  injection Hq as ->.
  destruct (Hf k d Hl) as [->|(data & ft & _ & _ & Hout)]; [done|].
  destruct (resolve_file_key _ _ _ _ _ Hr Hl) as [k1 Hk1].
  destruct (resolve_output_key _ _ _ _ _ _ Hout) as (k2 & Hk2 & _).
  rewrite Hk1 in Hk2. apply app_inj_tail in Hk2 as [_ Hk2].
  rewrite Hk2 in Hn. by apply output_seg_not_ctex in Hn.
Qed.

(** X3. Whatever the outcome and whatever the environment does, a
    conversion leaves every regular file whose name ends with [.ctex] (in
    any letter case) with the content it had; the input itself, when it is
    so named, is never overwritten. *)
Theorem ctex_files_never_modified p od w r w' q d :
  convert_ctex_to_image p od w = (r, w') →
  file_at w q = Some d →
  ctex_name (PurePath.name (PurePath.parse q)) →
  file_at w' q = Some d.
Proof. apply ctex_file_kept. Qed.

(** X4. For an input whose name ends with [.ctex]: when a run succeeded
    and the environment raises no fault, running the converter again returns
    the same result and leaves the file system exactly as the first run
    left it. *)
Theorem rerun_idempotent_for_ctex p od w out msg w1 :
  ctex_name (PurePath.name (PurePath.parse p)) →
  convert_ctex_to_image p od w = (inr (true, out, msg), w1) →
  faults w1 = [] →
  convert_ctex_to_image p od w1 = (inr (true, out, msg), w1).
Proof.
  intros Hn Hrun Hq.
  pose proof Hrun as [Hc (d & Hd & ft & t1 & kout & H)]%convert_success.
  destruct H as (Hlen & Hft & -> & -> & Hk & Hdir & Hr & Hnd & Ht).
  pose proof (ctex_file_kept _ _ _ _ _ p d Hrun Hd Hn) as Hsame.
  destruct w1 as [tf c fs]. simpl in *. subst fs c.
  unfold file_at, file_in in Hsame. simpl in Hsame.
  destruct (resolve tf (cwd w) p) as [e|k] eqn:Hrp; [done|].
  destruct (lookup tf k) as [[d'|es]|] eqn:Hlp; try done.
  injection Hsame as ->.
  pose proof (dirs_kept_put kout (File (skipn 56 d)) t1 Hnd) as Hk1.
  rewrite <- Ht in Hk1.
  assert (lookup tf kout = Some (File (skipn 56 d))) as Hlo.
  { rewrite Ht. apply lookup_put_eq. by eapply resolve_put_ok. }
  unfold convert_ctex_to_image, try_except.
  rewrite (convert_body_quiet p od tf (cwd w) k d ft kout Hrp Hlp Hlen Hft).
  - by rewrite Ht, put_put.
  - by apply (dir_in_kept t1).
  - by apply (resolve_kept t1).
  - unfold is_dir_at. by rewrite Hlo.
Qed.

End Inputs.

(** ** The batch driver *)
Section Batch.
Import OS.

Lemma batch_frame_refl w : batch_frame w w.
Proof. repeat split; try done. apply inputs_kept_refl. Qed.

Lemma batch_frame_trans w1 w2 w3 :
  batch_frame w1 w2 → batch_frame w2 w3 → batch_frame w1 w3.
Proof.
  intros (Hc1 & Hd1 & Hf1 & Hi1) (Hc2 & Hd2 & Hf2 & Hi2). split; [congruence|].
  split; [by intros q Hq; apply Hd2, Hd1|].
  split; [|by eapply inputs_kept_trans].
  intros q d Hq Hn. apply Hf2; [|done]. by apply Hf1.
Qed.

Lemma convert_batch_frame p od w r w' :
  convert_ctex_to_image p od w = (r, w') → batch_frame w w'.
Proof.
  intros Hrun. pose proof Hrun as [r0 (Hc & Hd & Hi & _)]%convert_frame.
  split; [done|]. split; [|split; [|done]].
  - intros q. unfold dir_at. rewrite Hc. by apply dir_in_kept.
  - intros q d. by apply ctex_file_kept with (1 := Hrun).
Qed.

Lemma abspath_ok p w : ∃ s, OsPath.abspath p w = (inr s, w).
Proof.
  unfold OsPath.abspath. destruct (Py.startswith p "/"); [by eexists|].
  unfold bind, OsPath.getcwd, ret. by eexists.
Qed.

(** [relpath] fails on the empty path only, and changes nothing. *)
Lemma relpath_ok p w : p ≠ "" → ∃ s, OsPath.relpath p w = (inr s, w).
Proof.
  intros Hp. destruct p as [|a p]; [done|]. unfold OsPath.relpath, bind.
  destruct (abspath_ok "." w) as [s1 ->].
  destruct (abspath_ok (String a p) w) as [s2 ->].
  case_match; by eexists.
Qed.

Lemma path_join_nonempty a b : a ≠ "" → path_join a b ≠ "".
Proof.
  intros Ha. unfold path_join. destruct a as [|x a]; [done|].
  destruct (Py.startswith b "/") eqn:Hb; [by destruct b|].
  by case_match.
Qed.

Lemma fold_path_join_nonempty rel a :
  a ≠ "" → fold_left path_join rel a ≠ "".
Proof.
  revert a. induction rel as [|x rel IH]; intros a Ha; [done|].
  simpl. by apply IH, path_join_nonempty.
Qed.

(** Discovery from a directory with a name returns paths with a name. *)
Lemma find_ctex_files_run directory w :
  directory ≠ "" →
  ∃ l, find_ctex_files directory w = (inr l, w) ∧ Forall (λ p, p ≠ "") l.
Proof.
  intros Hd. unfold find_ctex_files, bind, os_walk, ret.
  destruct (resolve (tree w) (cwd w) directory) as [e|k];
    [by eexists; split; [done|constructor]|].
  destruct (lookup (tree w) k) as [n|];
    [|by eexists; split; [done|constructor]].
  eexists. split; [done|]. apply List.Forall_forall. intros path Hin.
  apply in_collect in Hin as (root & dirs & files & file & Hin & Hf & _ & ->).
  destruct (proj1 (walk_node_spec n directory root file)) as (rel & _ & ->);
    [eauto|]. by apply path_join_nonempty, fold_path_join_nonempty.
Qed.

Lemma getcwd_nonempty w : ∃ s, OsPath.getcwd w = (inr s, w) ∧ s ≠ "".
Proof. eexists. split; [done|]. done. Qed.

(** One turn of the second loop: it never fails, and it counts the file
    once, as the conversion reported it. *)
Lemma process_file_run f sc ec out w :
  f ≠ "" →
  ∃ success outp msg lines w',
    convert_ctex_to_image f None w = (inr (success, outp, msg), w') ∧
    process_file f (sc, ec) out w
    = (inr (if success then (sc + 1, ec) else (sc, ec + 1)), out ++ lines, w').
Proof.
  intros Hf. unfold process_file, pbind, call, print, pret.
  destruct (relpath_ok f w Hf) as [rel ->].
  destruct (convert_ctex_to_image f None w) as [r w1] eqn:Hrun.
  pose proof Hrun as (res & -> & _)%convert_outcome.
  destruct res as [[[] outp] msg].
  - apply convert_success in Hrun as [_ (d & _ & ft & t1 & kout & _ & _ & -> & _)].
    destruct (relpath_ok _ w1 (str_nonempty (output_path f None (ext ft))))
      as [rel' ->].
    exists true. do 3 eexists. exists w1. rewrite <- !app_assoc. by split.
  - exists false. do 3 eexists. exists w1. rewrite <- !app_assoc. by split.
Qed.

Lemma process_file_spec f sc ec out w :
  f ≠ "" →
  ∃ sc' ec' lines w',
    process_file f (sc, ec) out w = (inr (sc', ec'), out ++ lines, w') ∧
    sc' + ec' = S (sc + ec) ∧ batch_frame w w'.
Proof.
  intros Hf.
  destruct (process_file_run f sc ec out w Hf)
    as (success & outp & msg & lines & w' & Hrun & ->).
  pose proof (convert_batch_frame _ _ _ _ _ Hrun) as Hframe.
  destruct success; do 4 eexists; (split; [done|]); (split; [lia|done]).
Qed.

Lemma for_each_cons {A S} (x : A) l (body : A → S → PM S) s :
  for_each (x :: l) body s = pbind (body x s) (for_each l body).
Proof. done. Qed.

Lemma process_loop_spec files :
  Forall (λ p, p ≠ "") files →
  ∀ sc ec out w,
  ∃ sc' ec' lines w',
    for_each files process_file (sc, ec) out w
      = (inr (sc', ec'), out ++ lines, w') ∧
    sc' + ec' = sc + ec + length files ∧ batch_frame w w'.
Proof.
  induction 1 as [|f files Hf _ IH]; intros sc ec out w.
  - exists sc, ec, [], w. simpl. unfold pret. rewrite app_nil_r.
    split; [done|]. split; [lia|apply batch_frame_refl].
  - destruct (process_file_spec f sc ec out w Hf)
      as (sc1 & ec1 & lines1 & w1 & Hrun1 & Hsum1 & Hfr1).
    destruct (IH sc1 ec1 (out ++ lines1) w1)
      as (sc2 & ec2 & lines2 & w2 & Hrun2 & Hsum2 & Hfr2).
    exists sc2, ec2, (lines1 ++ lines2), w2. rewrite for_each_cons.
    unfold pbind. rewrite Hrun1, Hrun2, app_assoc.
    split; [done|]. split; [simpl; lia|by eapply batch_frame_trans].
Qed.

Lemma list_loop_spec files :
  Forall (λ p, p ≠ "") files →
  ∀ i out w,
  ∃ lines, for_each (enumerate files i) list_file tt out w
           = (inr tt, out ++ lines, w) ∧ length lines = length files.
Proof.
  induction 1 as [|f files Hf _ IH]; intros i out w.
  - exists []. simpl. unfold pret. by rewrite app_nil_r.
  - change (enumerate (f :: files) i) with ((i, f) :: enumerate files (S i)).
    rewrite for_each_cons. unfold pbind at 1.
    unfold list_file at 1, pbind, call, print.
    destruct (relpath_ok f w Hf) as [rel ->].
    destruct (IH (S i) (out ++ ["  " +:+ Py.fmt_nat i +:+ ". " +:+ rel]) w)
      as (lines & -> & Hlen).
    eexists (_ :: lines). rewrite <- app_assoc. split; [done|]. simpl. lia.
Qed.

Lemma summary_run sc ec out w :
  summary (sc, ec) out w =
  (inr tt,
   out ++ [str_mul "=" 40; "Conversion completed!";
           "Success: " +:+ Py.fmt_nat sc +:+ " files";
           "Errors:  " +:+ Py.fmt_nat ec +:+ " files"]
       ++ (if 0 <? ec then [advisory] else []),
   w).
Proof.
  unfold summary, pbind, print, pret. simpl.
  destruct (0 <? ec); by rewrite <- ?app_assoc, ?app_nil_r.
Qed.

End Batch.

Section BatchTheorems.
Import OS.

(** The whole of [main], in terms of what discovery returns. *)
Lemma main_run out0 w :
  ∃ files,
    find_ctex_files ("/" +:+ Py.join "/" (cwd w)) w = (inr files, w) ∧
    Forall (λ p, p ≠ "") files ∧
    match files with
    | [] =>
        main out0 w =
        (inr tt,
         out0 ++ ["CTEX to Image Converter"; str_mul "=" 40;
                  "Searching for CTEX files in: " +:+ "/" +:+ Py.join "/" (cwd w);
                  "No CTEX files found in current directory and subdirectories."],
         w)
    | _ :: _ =>
        ∃ sc ec mid w',
          main out0 w =
          (inr tt,
           out0 ++ mid
                ++ [str_mul "=" 40; "Conversion completed!";
                    "Success: " +:+ Py.fmt_nat sc +:+ " files";
                    "Errors:  " +:+ Py.fmt_nat ec +:+ " files"]
                ++ (if 0 <? ec then [advisory] else []),
           w') ∧
          sc + ec = length files ∧ batch_frame w w'
    end.
Proof.
  destruct (find_ctex_files_run ("/" +:+ Py.join "/" (cwd w)) w)
    as (files & Hfind & Hne); [done|].
  exists files. split; [done|]. split; [done|].
  unfold main, pbind, print, call, OsPath.getcwd. rewrite Hfind.
  destruct files as [|f files]; [by rewrite <- !app_assoc|].
  destruct (list_loop_spec (f :: files) Hne 1
    ((((out0 ++ ["CTEX to Image Converter"]) ++ [str_mul "=" 40])
      ++ ["Searching for CTEX files in: " +:+ "/" +:+ Py.join "/" (cwd w)])
      ++ ["Found " +:+ Py.fmt_nat (length (f :: files)) +:+ " CTEX files:"]) w)
    as (lines & -> & _).
  match goal with
  | |- context [for_each (f :: files) process_file (0, 0) ?o w] =>
      destruct (process_loop_spec (f :: files) Hne 0 0 o w)
        as (sc & ec & plines & w' & -> & Hsum & Hframe)
  end.
  rewrite summary_run.
  exists sc, ec,
    (["CTEX to Image Converter"; str_mul "=" 40;
      "Searching for CTEX files in: " +:+ "/" +:+ Py.join "/" (cwd w);
      "Found " +:+ Py.fmt_nat (length (f :: files)) +:+ " CTEX files:"]
     ++ lines
     ++ [newline +:+ "Converting files..."; str_mul "-" 40]
     ++ plines), w'.
  split; [|by split]. f_equal. f_equal. by rewrite <- !app_assoc.
Qed.

(** X5. [main] always runs to its end, whatever the files hold and whatever
    the environment does to the conversions: a file that fails does not stop
    the batch.  Every discovered file is counted once, as a success or as
    an error, and the report ends with the two counts, followed by the
    advisory line exactly when there was an error. *)
Theorem main_counts_every_file out0 w :
  ∃ files out1 w',
    find_ctex_files ("/" +:+ Py.join "/" (cwd w)) w = (inr files, w) ∧
    main out0 w = (inr tt, out1, w') ∧
    (files ≠ [] →
     ∃ sc ec mid,
       sc + ec = length files ∧
       out1 = out0 ++ mid
                   ++ [str_mul "=" 40; "Conversion completed!";
                       "Success: " +:+ Py.fmt_nat sc +:+ " files";
                       "Errors:  " +:+ Py.fmt_nat ec +:+ " files"]
                   ++ (if 0 <? ec then [advisory] else [])).
Proof.
  destruct (main_run out0 w) as (files & Hfind & _ & H).
  exists files. destruct files as [|f files].
  - do 2 eexists. by repeat split.
  - destruct H as (sc & ec & mid & w' & -> & Hsum & _).
    do 2 eexists. repeat split; try done. intros _. by exists sc, ec, mid.
Qed.

Lemma nil_of_no_member {A} (l : list A) : (∀ x, ¬ In x l) → l = [].
Proof. destruct l as [|x l]; [done|]. intros H. destruct (H x). by left. Qed.

(** X6. When no regular file below the working directory has a name that
    ends with [.ctex], [main] prints its heading and the notice that nothing
    was found, converts nothing and leaves the world as it was. *)
Theorem main_nothing_found out0 w :
  (∀ k n rel name,
     resolve (tree w) (cwd w) ("/" +:+ Py.join "/" (cwd w)) = inr k →
     lookup (tree w) k = Some n →
     file_under n rel name → ¬ ctex_name name) →
  main out0 w =
  (inr tt,
   out0 ++ ["CTEX to Image Converter";
            "========================================";
            "Searching for CTEX files in: " +:+ "/" +:+ Py.join "/" (cwd w);
            "No CTEX files found in current directory and subdirectories."],
   w).
Proof.
  intros Hnone. destruct (main_run out0 w) as (files & Hfind & _ & H).
  assert (files = []) as ->; [|done].
  revert Hfind. unfold find_ctex_files, bind, os_walk, ret.
  destruct (resolve (tree w) (cwd w) _) as [e|k] eqn:Hr; [by intros [= <-]|].
  destruct (lookup (tree w) k) as [n|] eqn:Hl; [|by intros [= <-]].
  intros [= <-]. apply nil_of_no_member. intros path Hin.
  apply in_collect in Hin as (root & dirs & files & file & Hin & Hf & Hc & _).
  destruct (proj1 (walk_node_spec n ("/" +:+ Py.join "/" (cwd w)) root file))
    as (rel & Hu & _); [eauto|].
  by apply (Hnone k n rel file).
Qed.

(** X7. Whatever the outcome of the conversions and whatever the
    environment does, [main] leaves the working directory, every directory,
    and every regular file whose name ends with [.ctex] as they were: the
    batch never overwrites or removes an input. *)
Theorem main_keeps_inputs out0 w r out1 w' :
  main out0 w = (r, out1, w') →
  cwd w' = cwd w ∧
  (∀ q, dir_at w q = true → dir_at w' q = true) ∧
  (∀ q d, file_at w q = Some d →
          ctex_name (PurePath.name (PurePath.parse q)) →
          file_at w' q = Some d).
Proof.
  intros Hrun. destruct (main_run out0 w) as (files & _ & _ & H).
  destruct files as [|f files].
  - rewrite H in Hrun. injection Hrun as _ _ <-. by repeat split.
  - destruct H as (sc & ec & mid & w1 & H & _ & Hc & Hd & Hf & _).
    rewrite H in Hrun. by injection Hrun as _ _ <-.
Qed.

(** X11. When the working directory exists, the files that [main] found
    are exactly the files a search finds after [main] has run, in the same
    order, whatever the outcome of the conversions and whatever the
    environment did: what the batch writes is never taken for an input, and
    a second run of [main] works on the same list. *)
Theorem rerun_finds_same_files out0 w r out1 w' :
  main out0 w = (r, out1, w') →
  dir_at w ("/" +:+ Py.join "/" (cwd w)) = true →
  ∃ files,
    find_ctex_files ("/" +:+ Py.join "/" (cwd w)) w = (inr files, w) ∧
    find_ctex_files ("/" +:+ Py.join "/" (cwd w')) w' = (inr files, w').
Proof.
  intros Hrun Hdir. destruct (main_run out0 w) as (files & _ & _ & H).
  assert (batch_frame w w') as (Hc & _ & _ & Hi).
  { destruct files as [|f files].
    - rewrite H in Hrun. injection Hrun as _ _ <-. apply batch_frame_refl.
    - destruct H as (sc & ec & mid & w1 & H & _ & Hframe).
      rewrite H in Hrun. by injection Hrun as _ _ <-. }
  rewrite Hc. by apply discovery_kept.
Qed.

End BatchTheorems.

(** ** Joined paths *)
Section Joined.
Import OS.

Lemma walk_components_msg p p' t cur l k :
  walk_components p t cur l = inr k → walk_components p' t cur l = inr k.
Proof.
  revert cur. induction l as [|x l IH]; intros cur; [done|]. simpl.
  destruct (lookup t cur) as [[d|es]|]; try done. repeat case_match; apply IH.
Qed.

Lemma walk_components_app p t cur l1 l2 :
  walk_components p t cur (l1 ++ l2) =
  match walk_components p t cur l1 with
  | inr k => walk_components p t k l2
  | inl e => inl e
  end.
Proof.
  revert cur. induction l1 as [|x l1 IH]; intros cur; [done|]. simpl.
  destruct (lookup t cur) as [[d|es]|]; try done.
  destruct (String.eqb x "" || String.eqb x "."); [apply IH|].
  destruct (String.eqb x ".."); apply IH.
Qed.

Lemma walk_components_name p t cur b :
  is_dir_at t cur = true → clean_name b →
  walk_components p t cur [b] = inr (cur ++ [b]).
Proof.
  intros Hd (H1 & H2 & H3). simpl. unfold is_dir_at in Hd.
  destruct (lookup t cur) as [[d|es]|]; try done.
  by rewrite (proj2 (String.eqb_neq b "") H1), (proj2 (String.eqb_neq b ".") H2),
    (proj2 (String.eqb_neq b "..") H3).
Qed.

Lemma startswith_append a x :
  a ≠ "" → Py.startswith (a +:+ x) "/" = Py.startswith a "/".
Proof.
  destruct a as [|c a]; [done|]. intros _.
  by rewrite append_cons, (startswith_cons c (a +:+ x)), (startswith_cons c a).
Qed.

Lemma startswith_sep a0 x y :
  Py.startswith (a0 +:+ String "/" x) "/" = Py.startswith (a0 +:+ String "/" y) "/".
Proof.
  destruct a0 as [|c a0].
  - change ("" +:+ String "/" x) with (String "/" x).
    change ("" +:+ String "/" y) with (String "/" y).
    by rewrite (startswith_cons "/" x), (startswith_cons "/" y).
  - by rewrite !append_cons, (startswith_cons c (a0 +:+ String "/" x)),
      (startswith_cons c (a0 +:+ String "/" y)).
Qed.

Lemma slash_free_startswith b : slash_free b = true → Py.startswith b "/" = false.
Proof.
  destruct b as [|x b]; [done|]. rewrite startswith_cons. simpl.
  intros [H _]%andb_true_iff. by apply negb_true_iff.
Qed.

Lemma resolve_nonempty t c a k : resolve t c a = inr k → a ≠ "".
Proof. by destruct a. Qed.

Lemma resolve_unfold t c a :
  a ≠ "" →
  resolve t c a =
  walk_components a t (if Py.startswith a "/" then [] else c) (Py.split "/" a).
Proof. by destruct a. Qed.

(** Below a directory that [a] leads to, [os.path.join(a, b)] leads to the
    entry [b]. *)
Lemma resolve_path_join t c a b ka :
  resolve t c a = inr ka → is_dir_at t ka = true →
  slash_free b = true → clean_name b →
  resolve t c (path_join a b) = inr (ka ++ [b]).
Proof.
  intros Hr Hd Hs Hb. pose proof (resolve_nonempty _ _ _ _ Hr) as Ha.
  rewrite (resolve_unfold _ _ _ Ha) in Hr.
  unfold path_join. rewrite (slash_free_startswith b Hs).
  rewrite (proj2 (String.eqb_neq a "") Ha). simpl.
  destruct (Py.endswith a "/") eqn:He.
  - apply endswith_spec in He as [a0 ->].
    change (a0 +:+ "/") with (a0 +:+ String "/" "") in Hr.
    rewrite split_app_sep, walk_components_app in Hr.
    rewrite append_assoc. change ("/" +:+ b) with (String "/" b).
    rewrite resolve_unfold by (by destruct a0).
    rewrite (startswith_sep a0 b "").
    rewrite split_app_sep, (split_component b Hs), walk_components_app.
    destruct (walk_components _ t _ (Py.split "/" a0)) as [e|k1] eqn:Hw; [done|].
    rewrite (walk_components_msg _ (a0 +:+ String "/" b) _ _ _ _ Hw).
    assert (k1 = ka) as ->.
    { simpl in Hr. destruct (lookup t k1) as [[d|es]|]; try done. by injection Hr. }
    by apply walk_components_name.
  - change (a +:+ "/" +:+ b) with (a +:+ String "/" b).
    rewrite resolve_unfold by (by destruct a).
    replace (Py.startswith (a +:+ String "/" b) "/") with (Py.startswith a "/")
      by (by rewrite startswith_append).
    rewrite split_app_sep, (split_component b Hs), walk_components_app.
    rewrite (walk_components_msg _ (a +:+ String "/" b) _ _ _ _ Hr).
    by apply walk_components_name.
Qed.

Lemma is_dir_at_app t k1 k2 :
  is_dir_at t (k1 ++ k2) = true → is_dir_at t k1 = true.
Proof.
  revert k1. induction k2 as [|x k2 IH] using rev_ind; intros k1.
  - by rewrite app_nil_r.
  - rewrite app_assoc. intros H%is_dir_at_removelast.
    rewrite removelast_last in H. by apply IH.
Qed.

Lemma resolve_fold_join t c rel :
  ∀ a ka,
    resolve t c a = inr ka →
    Forall (λ x, clean_name x ∧ slash_free x = true) rel →
    is_dir_at t (ka ++ rel) = true →
    resolve t c (fold_left path_join rel a) = inr (ka ++ rel).
Proof.
  induction rel as [|x rel IH]; intros a ka Hr Hrel Hd.
  - by rewrite app_nil_r.
  - inversion Hrel as [|? ? [Hx Hs] Hrel']; subst. simpl.
    replace (ka ++ x :: rel) with ((ka ++ [x]) ++ rel) in *
      by (by rewrite <- app_assoc).
    apply IH; [|done|done].
    apply resolve_path_join; [done| |done|done].
    by apply is_dir_at_app in Hd as Hd%is_dir_at_app.
Qed.

Lemma entry_get_in es c n :
  NoDup (map fst es) → In (c, n) es → entry_get c es = Some n.
Proof.
  induction es as [|[c' n'] es IH]; [done|]. simpl.
  intros Hnd [[= -> ->]|Hin].
  - by rewrite String.eqb_refl.
  - inversion Hnd as [|? ? Hnot Hnd'']; subst.
    destruct (String.eqb_spec c c') as [->|Hne]; [|by apply IH].
    destruct Hnot. apply list_elem_of_In, in_map_iff. by exists (c', n).
Qed.

(** In a well-formed tree a file found by the walk is the file that its
    components lead to. *)
Lemma file_under_lookup n rel name :
  wf_node n → file_under n rel name →
  (∃ d, lookup n (rel ++ [name]) = Some (File d)) ∧
  Forall (λ x, clean_name x ∧ slash_free x = true) (rel ++ [name]).
Proof.
  intros Hwf Hu. revert Hwf.
  induction Hu as [es name d Hin|es dname child rel name Hin Hu IH];
    intros Hwf; inversion Hwf as [|es' Hnd Hes Hsub]; subst.
  - destruct (Hes _ _ Hin) as (Hc & Hs). simpl.
    rewrite (entry_get_in _ _ _ Hnd Hin). split; [eauto|].
    constructor; [done|constructor].
  - destruct (Hes _ _ Hin) as (Hc & Hs). simpl.
    rewrite (entry_get_in _ _ _ Hnd Hin).
    destruct (IH (Hsub _ _ Hin)) as [Hl Hf]. split; [done|]. by constructor.
Qed.

End Joined.

(** ** From discovery to conversion *)
Section Handover.
Import OS.

Lemma discovered_path t c directory k n rel name :
  resolve t c directory = inr k → lookup t k = Some n → wf_node n →
  file_under n rel name →
  ∃ d,
    resolve t c (path_join (fold_left path_join rel directory) name)
      = inr (k ++ rel ++ [name]) ∧
    lookup t (k ++ rel ++ [name]) = Some (File d).
Proof.
  intros Hr Hl Hwf Hu.
  destruct (file_under_lookup n rel name Hwf Hu) as [[d Hd] Hf].
  apply Forall_app in Hf as [Hrel Hname].
  inversion Hname as [|? ? [Hc Hs] _]; subst.
  assert (lookup t (k ++ rel ++ [name]) = Some (File d)) as Hfile.
  { by rewrite lookup_app, Hl. }
  assert (is_dir_at t (k ++ rel) = true) as Hdir.
  { apply (is_dir_at_prefix t (k ++ rel) name).
    rewrite <- app_assoc. by rewrite Hfile. }
  exists d. split; [|done]. rewrite app_assoc.
  apply resolve_path_join; [|done|done|done].
  by apply resolve_fold_join.
Qed.

(** What a walk of a well-formed directory collects. *)
Lemma collected_input t c directory k n path :
  resolve t c directory = inr k → lookup t k = Some n → wf_node n →
  In path (collect (walk_node directory n)) →
  ∃ d, file_in t c path = Some d ∧
       ctex_name (PurePath.name (PurePath.parse path)).
Proof.
  intros Hr Hl Hwf Hin.
  apply in_collect in Hin as (root & dirs & files & file & Hin & Hf & Hc & ->).
  destruct (proj1 (walk_node_spec n directory root file)) as (rel & Hu & ->);
    [eauto|].
  destruct (discovered_path _ _ _ _ _ _ _ Hr Hl Hwf Hu) as (d & Hrp & Hlp).
  exists d. unfold file_in. rewrite Hrp, Hlp. split; [done|].
  destruct (resolve_file_key _ _ _ _ _ Hrp Hlp) as [k' Hk'].
  rewrite !app_assoc in Hk'. apply app_inj_tail in Hk' as [_ <-]. done.
Qed.

(** X8. In a well-formed directory tree every path that [find_ctex_files]
    returns names a regular file, so that [open] finds it, and the name that
    pathlib sees in the path ends with [.ctex]: what discovery hands over is
    a valid input of the converter. *)
Theorem discovered_paths_are_files directory w k n l :
  resolve (tree w) (cwd w) directory = inr k →
  lookup (tree w) k = Some n →
  wf_node n →
  find_ctex_files directory w = (inr l, w) →
  ∀ path, In path l →
    ∃ d, file_at w path = Some d ∧
         ctex_name (PurePath.name (PurePath.parse path)).
Proof.
  intros Hr Hl Hwf Hfind path Hin.
  revert Hfind. unfold find_ctex_files, bind, os_walk, ret. rewrite Hr, Hl.
  intros [= <-]. unfold file_at. by eapply collected_input.
Qed.

End Handover.

(** ** No file is found twice *)
Section Once.
Import OS.

Lemma collect_positions n :
  ∀ top, collect (walk_node top n)
         = map (fun pos => fold_left path_join pos top) (ctex_positions n).
Proof.
  induction n as [d|es IH] using node_nested_ind; intros top; [done|].
  rewrite collect_walk_dir. simpl ctex_positions. rewrite map_app. f_equal.
  - clear IH. induction es as [|[c [d|es1]] es IHes]; simpl; [done| |done].
    rewrite IHes. by destruct (Py.endswith (Py.lower c) ".ctex").
  - induction IH as [|[c n] es Hn _ IHes]; simpl; [done|].
    by rewrite map_app, IHes, Hn, map_map.
Qed.

Lemma positions_file_under n :
  ∀ pos, In pos (ctex_positions n) →
    ∃ rel name, pos = rel ++ [name] ∧ file_under n rel name ∧ ctex_name name.
Proof.
  induction n as [d|es IH] using node_nested_ind; intros pos; [done|].
  simpl ctex_positions. rewrite in_app_iff, !in_flat_map.
  intros [([c n] & Hin & H)|([c n] & Hin & H)]; simpl in H.
  - destruct n as [d|es1]; [|done].
    destruct (Py.endswith (Py.lower c) ".ctex") eqn:Hc; [|done].
    destruct H as [<-|[]]. exists [], c. split; [done|].
    split; [by econstructor|by apply ctex_name_spec].
  - apply in_map_iff in H as (pos' & <- & Hpos').
    rewrite List.Forall_forall in IH.
    destruct (IH (c, n) Hin pos' Hpos') as (rel & name & -> & Hu & Hc).
    exists (c :: rel), name. split; [done|]. split; [by econstructor|done].
Qed.

(** Lists that start with the names of different entries share nothing. *)
Lemma nodup_flat_map_heads (g : string * node → list (list string)) es :
  List.NoDup (map fst es) →
  (∀ e, In e es → List.NoDup (g e)) →
  (∀ e pos, In e es → In pos (g e) → ∃ tl, pos = e.1 :: tl) →
  List.NoDup (flat_map g es).
Proof.
  induction es as [|e es IH]; simpl; intros Hnd Hg Hh; [constructor|].
  inversion Hnd as [|? ? Hnotin Hnd']; subst.
  apply List.NoDup_app.
  - apply Hg. by left.
  - apply IH; [done|intros; apply Hg; by right|intros ???; apply Hh; by right].
  - intros pos Hpos Hpos'. apply in_flat_map in Hpos' as (e' & He' & Hpos').
    destruct (Hh e pos (or_introl eq_refl) Hpos) as [tl ->].
    destruct (Hh e' _ (or_intror He') Hpos') as [tl' [= Heq _]].
    apply Hnotin. rewrite Heq. by apply in_map.
Qed.

Lemma positions_nodup n : wf_node n → List.NoDup (ctex_positions n).
Proof.
  induction 1 as [d|es Hnd Hnames Hwf IH]; [constructor|].
  apply NoDup_ListNoDup in Hnd.
  simpl ctex_positions. apply List.NoDup_app.
  - apply nodup_flat_map_heads; [done| |].
    + intros [c [d|es1]] _; simpl; [|constructor].
      destruct (Py.endswith (Py.lower c) ".ctex"); [|constructor].
      constructor; [by intros []|constructor].
    + intros [c [d|es1]] pos _; simpl; [|done].
      destruct (Py.endswith (Py.lower c) ".ctex"); [|done].
      intros [<-|[]]. by exists [].
  - apply nodup_flat_map_heads; [done| |].
    + intros [c n] Hin. simpl.
      apply NoDup_map_NoDup_ForallPairs; [by intros x y _ _ [= ->]|].
      by eapply IH.
    + intros [c n] pos _ Hpos. simpl in Hpos.
      apply in_map_iff in Hpos as (tl & <- & _). by exists tl.
  - intros pos H1 H2.
    apply in_flat_map in H1 as ([c1 n1] & Hin1 & H1).
    apply in_flat_map in H2 as ([c2 n2] & Hin2 & H2). simpl in H1, H2.
    destruct n1 as [d|es1]; [|done].
    destruct (Py.endswith (Py.lower c1) ".ctex"); [|done].
    destruct H1 as [<-|[]].
    apply in_map_iff in H2 as (tl & [= _ ->] & Htl).
    destruct (positions_file_under _ _ Htl) as (rel & name & Heq & _).
    by destruct rel.
Qed.

(** X15. In a well-formed directory tree the list that [find_ctex_files]
    returns names no path twice: no file is converted twice by the batch. *)
Theorem discovery_lists_each_file_once directory w k n l :
  resolve (tree w) (cwd w) directory = inr k →
  lookup (tree w) k = Some n →
  wf_node n →
  find_ctex_files directory w = (inr l, w) →
  NoDup l.
Proof.
  intros Hr Hl Hwf Hfind. revert Hfind.
  unfold find_ctex_files, bind, os_walk, ret. rewrite Hr, Hl. intros [= <-].
  rewrite collect_positions. apply NoDup_ListNoDup.
  apply NoDup_map_NoDup_ForallPairs; [|by apply positions_nodup].
  intros pos1 pos2 H1 H2 Heq.
  destruct (positions_file_under _ _ H1) as (rel1 & name1 & -> & Hu1 & _).
  destruct (positions_file_under _ _ H2) as (rel2 & name2 & -> & Hu2 & _).
  destruct (discovered_path _ _ _ _ _ _ _ Hr Hl Hwf Hu1) as (d1 & Hr1 & _).
  destruct (discovered_path _ _ _ _ _ _ _ Hr Hl Hwf Hu2) as (d2 & Hr2 & _).
  rewrite !fold_left_app in Heq. simpl in Heq. rewrite Heq in Hr1.
  rewrite Hr1 in Hr2. injection Hr2 as Hk. by apply app_inv_head in Hk.
Qed.

End Once.

(** ** When a conversion succeeds *)
Section Progress.
Import OS.



















End Progress.


(** ** An input that cannot be opened *)
Section Unreadable.
Import OS.

Lemma walk_components_error p t cur comps e :
  walk_components p t cur comps = inl e → e = enoent p ∨ e = enotdir p.
Proof.
  revert cur. induction comps as [|x comps IH]; intros cur; simpl; [done|].
  destruct (lookup t cur) as [[d|es]|]; [intros [= <-]; by right| |intros [= <-]; by left].
  repeat case_match; apply IH.
Qed.


End Unreadable.

(** ** A batch in which nothing goes wrong *)
Section AllGood.
Import OS.






End AllGood.

(** ** Making the output directory *)
Section Making.
Import OS.


Lemma resolve_error t c p e :
  resolve t c p = inl e → e = enoent p ∨ e = enotdir p.
Proof.
  unfold resolve. destruct p as [|a p]; [intros [= <-]; by left|].
  apply walk_components_error.
Qed.









End Making.

(** * The further properties on the sample file system *)
Section SampleMore.
Import OS.

Lemma sample_proj_wf :
  wf_node (Dir
    [("icon.ctex", File icon); ("tiny.ctex", File tiny);
     ("bare.ctex", File (header Byte.x02)); ("notes.txt", File []);
     ("sub",
      Dir [("Tex.CTEX", File (header Byte.x07 ++ [Byte.x2a]));
           ("deep", Dir [("a.Ctex", File [])])])]).
Proof.
  repeat first
    [ apply wf_file
    | apply wf_dir;
      [ apply (bool_decide_unpack _); by vm_compute
      | intros c n Hin; simpl in Hin;
        repeat (destruct Hin as [Hin|Hin]; [by simplify_eq|]); done
      | intros c n Hin; simpl in Hin;
        repeat (destruct Hin as [Hin|Hin]; [simplify_eq|]); try done ] ].
Qed.

Lemma convert_changes_only_output_witness :
  convert_ctex_to_image "icon.ctex" None sample
    = (inr (true, "icon.png", "Format: PNG, Size: 4 bytes"), sample_converted) ∧
  cwd sample_converted = cwd sample ∧
  (∀ q, dir_at sample q = true → dir_at sample_converted q = true) ∧
  (∀ q d, file_at sample q = Some d →
     file_at sample_converted q = Some d ∨
     ∃ data ft,
       file_at sample "icon.ctex" = Some data ∧
       Py.unpack_le_u32 (firstn 4 (skipn 36 data)) = inr ft ∧
       resolve (tree sample_converted) (cwd sample_converted) q
       = resolve (tree sample_converted) (cwd sample_converted)
           (PurePath.str (output_path "icon.ctex" None (ext ft)))).
Proof.
  assert (convert_ctex_to_image "icon.ctex" None sample
          = (inr (true, "icon.png", "Format: PNG, Size: 4 bytes"),
             sample_converted)) as H1 by (vm_compute; reflexivity).
  split; [assumption|].
  exact (convert_changes_only_output _ _ _ _ _ H1).
Defined.

Lemma ctex_files_never_modified_witness :
  convert_ctex_to_image "icon.ctex" None sample
    = (inr (true, "icon.png", "Format: PNG, Size: 4 bytes"), sample_converted) ∧
  file_at sample "sub/Tex.CTEX" = Some (header Byte.x07 ++ [Byte.x2a]) ∧
  ctex_name (PurePath.name (PurePath.parse "sub/Tex.CTEX")) ∧
  file_at sample_converted "sub/Tex.CTEX" = Some (header Byte.x07 ++ [Byte.x2a]).
Proof.
  assert (convert_ctex_to_image "icon.ctex" None sample
          = (inr (true, "icon.png", "Format: PNG, Size: 4 bytes"),
             sample_converted)) as H1 by (vm_compute; reflexivity).
  assert (file_at sample "sub/Tex.CTEX" = Some (header Byte.x07 ++ [Byte.x2a]))
    as H2 by reflexivity.
  assert (ctex_name (PurePath.name (PurePath.parse "sub/Tex.CTEX"))) as H3.
  { apply ctex_name_spec. reflexivity. }
  repeat (split; [assumption|]).
  exact (ctex_files_never_modified _ _ _ _ _ _ _ H1 H2 H3).
Defined.

Lemma rerun_idempotent_for_ctex_witness :
  ctex_name (PurePath.name (PurePath.parse "icon.ctex")) ∧
  convert_ctex_to_image "icon.ctex" None sample
    = (inr (true, "icon.png", "Format: PNG, Size: 4 bytes"), sample_converted) ∧
  faults sample_converted = [] ∧
  convert_ctex_to_image "icon.ctex" None sample_converted
    = (inr (true, "icon.png", "Format: PNG, Size: 4 bytes"), sample_converted).
Proof.
  assert (ctex_name (PurePath.name (PurePath.parse "icon.ctex"))) as H1.
  { apply ctex_name_spec. reflexivity. }
  assert (convert_ctex_to_image "icon.ctex" None sample
          = (inr (true, "icon.png", "Format: PNG, Size: 4 bytes"),
             sample_converted)) as H2 by (vm_compute; reflexivity).
  assert (faults sample_converted = []) as H3 by (vm_compute; reflexivity).
  repeat (split; [assumption|]).
  exact (rerun_idempotent_for_ctex _ _ _ _ _ _ H1 H2 H3).
Defined.

Lemma plain_has_no_ctex :
  ∀ k n rel name,
    resolve (tree plain) (cwd plain) ("/" +:+ Py.join "/" (cwd plain)) = inr k →
    lookup (tree plain) k = Some n →
    file_under n rel name → ¬ ctex_name name.
Proof.
  intros k n rel name Hr Hl Hu. vm_compute in Hr. injection Hr as <-.
  vm_compute in Hl. injection Hl as <-.
  inversion Hu as [es x d Hin|es c child rel' x Hin Hu']; subst;
    simpl in Hin; destruct Hin as [Hin|[]]; simplify_eq.
  - intros Hc%ctex_name_spec. by vm_compute in Hc.
  - inversion Hu'.
Qed.

Lemma main_nothing_found_witness :
  (∀ k n rel name,
     resolve (tree plain) (cwd plain) ("/" +:+ Py.join "/" (cwd plain)) = inr k →
     lookup (tree plain) k = Some n →
     file_under n rel name → ¬ ctex_name name) ∧
  main [] plain =
  (inr tt,
   [] ++ ["CTEX to Image Converter";
          "========================================";
          "Searching for CTEX files in: " +:+ "/" +:+ Py.join "/" (cwd plain);
          "No CTEX files found in current directory and subdirectories."],
   plain).
Proof.
  split; [exact plain_has_no_ctex|].
  exact (main_nothing_found [] plain plain_has_no_ctex).
Defined.

Lemma main_keeps_inputs_witness :
  main [] sample = ((main [] sample).1.1, (main [] sample).1.2, (main [] sample).2) ∧
  cwd (main [] sample).2 = cwd sample ∧
  (∀ q, dir_at sample q = true → dir_at (main [] sample).2 q = true) ∧
  (∀ q d, file_at sample q = Some d →
          ctex_name (PurePath.name (PurePath.parse q)) →
          file_at (main [] sample).2 q = Some d).
Proof.
  assert (main [] sample
          = ((main [] sample).1.1, (main [] sample).1.2, (main [] sample).2))
    as H1 by (by destruct (main [] sample) as [[r o] w]).
  split; [assumption|].
  exact (main_keeps_inputs _ _ _ _ _ H1).
Defined.

Lemma discovered_paths_are_files_witness :
  resolve (tree sample) (cwd sample) "." = inr ["proj"] ∧
  find_ctex_files "." sample
    = (inr ["./icon.ctex"; "./tiny.ctex"; "./bare.ctex"; "./sub/Tex.CTEX";
            "./sub/deep/a.Ctex"], sample) ∧
  ∀ path,
    In path ["./icon.ctex"; "./tiny.ctex"; "./bare.ctex"; "./sub/Tex.CTEX";
             "./sub/deep/a.Ctex"] →
    ∃ d, file_at sample path = Some d ∧
         ctex_name (PurePath.name (PurePath.parse path)).
Proof.
  assert (resolve (tree sample) (cwd sample) "." = inr ["proj"]) as H1
    by reflexivity.
  assert (find_ctex_files "." sample
    = (inr ["./icon.ctex"; "./tiny.ctex"; "./bare.ctex"; "./sub/Tex.CTEX";
            "./sub/deep/a.Ctex"], sample)) as H2 by (vm_compute; reflexivity).
  repeat (split; [assumption|]).
  exact (discovered_paths_are_files "." sample ["proj"] _ _ H1 eq_refl
           sample_proj_wf H2).
Defined.


Lemma conversion_keeps_discovery_witness :
  convert_ctex_to_image "icon.ctex" None sample
    = (inr (true, "icon.png", "Format: PNG, Size: 4 bytes"), sample_converted) ∧
  dir_at sample "." = true ∧
  ∃ l, find_ctex_files "." sample = (inr l, sample) ∧
       find_ctex_files "." sample_converted = (inr l, sample_converted).
Proof.
  assert (convert_ctex_to_image "icon.ctex" None sample
          = (inr (true, "icon.png", "Format: PNG, Size: 4 bytes"),
             sample_converted)) as H1 by (vm_compute; reflexivity).
  assert (dir_at sample "." = true) as H2 by reflexivity.
  repeat (split; [assumption|]).
  exact (conversion_keeps_discovery _ _ _ _ _ "." H1 H2).
Defined.

Lemma rerun_finds_same_files_witness :
  main [] sample = ((main [] sample).1.1, (main [] sample).1.2, (main [] sample).2) ∧
  dir_at sample ("/" +:+ Py.join "/" (cwd sample)) = true ∧
  ∃ files,
    find_ctex_files ("/" +:+ Py.join "/" (cwd sample)) sample
      = (inr files, sample) ∧
    find_ctex_files ("/" +:+ Py.join "/" (cwd (main [] sample).2))
        (main [] sample).2
      = (inr files, (main [] sample).2).
Proof.
  assert (main [] sample
          = ((main [] sample).1.1, (main [] sample).1.2, (main [] sample).2))
    as H1 by (by destruct (main [] sample) as [[r o] w]).
  assert (dir_at sample ("/" +:+ Py.join "/" (cwd sample)) = true) as H2
    by reflexivity.
  repeat (split; [assumption|]).
  exact (rerun_finds_same_files _ _ _ _ _ H1 H2).
Defined.







Lemma discovery_lists_each_file_once_witness :
  resolve (tree sample) (cwd sample) "." = inr ["proj"] ∧
  find_ctex_files "." sample
    = (inr ["./icon.ctex"; "./tiny.ctex"; "./bare.ctex"; "./sub/Tex.CTEX";
            "./sub/deep/a.Ctex"], sample) ∧
  NoDup ["./icon.ctex"; "./tiny.ctex"; "./bare.ctex"; "./sub/Tex.CTEX";
         "./sub/deep/a.Ctex"].
Proof.
  assert (resolve (tree sample) (cwd sample) "." = inr ["proj"]) as H1
    by reflexivity.
  assert (find_ctex_files "." sample
    = (inr ["./icon.ctex"; "./tiny.ctex"; "./bare.ctex"; "./sub/Tex.CTEX";
            "./sub/deep/a.Ctex"], sample)) as H2 by (vm_compute; reflexivity).
  repeat (split; [assumption|]).
  exact (discovery_lists_each_file_once "." sample ["proj"] _ _ H1 eq_refl
           sample_proj_wf H2).
Defined.

End SampleMore.
